(** * Simple8 auth backend (server.js): a shallow embedding and its contract

    The service is a handful of Express handlers over two Supabase tables
    ([users], [resets]), a bcrypt hasher, a JWT signer and an optional SMTP
    mailer.  Handlers are embedded as functions from the world (tables,
    outbox, console) to a response and a new world.  The external libraries
    are not part of the repository: bcrypt and jsonwebtoken are parameters of
    the development, the Supabase query builder is modelled on lists of rows,
    and what they decide nondeterministically (clock, random bytes, salts,
    failures of a store or mail call) is read from an explicit environment.

    Strings are sequences of code units below 256 (the Latin-1 range); request
    fields are a string or missing.  The message literals hold the UTF-8 bytes
    of the texts of server.js and are only ever compared for equality. *)

From Stdlib Require Import String Ascii List Bool Arith ZArith Lia.
Import ListNotations.
Open Scope string_scope.

(** ** JavaScript string primitives used by the handlers *)

Module Js.

(** White space and line terminators, as [String.prototype.trim] and the
    regular expression class [\s] see them (code units below 256). *)
Definition is_space (c : ascii) : bool :=
  let n := nat_of_ascii c in
  (((9 <=? n) && (n <=? 13)) || (n =? 32) || (n =? 160))%nat.

(** Line terminators: the code units [.] does not match. *)
Definition is_line_terminator (c : ascii) : bool :=
  let n := nat_of_ascii c in ((n =? 10) || (n =? 13))%nat.

(** Default (locale-independent) lower-casing of one code unit. *)
Definition lower_char (c : ascii) : ascii :=
  let n := nat_of_ascii c in
  if (((65 <=? n) && (n <=? 90))
      || ((192 <=? n) && (n <=? 214))
      || ((216 <=? n) && (n <=? 222)))%nat
  then ascii_of_nat (n + 32) else c.

Fixpoint toLowerCase (s : string) : string :=
  match s with
  | EmptyString => EmptyString
  | String c s' => String (lower_char c) (toLowerCase s')
  end.

Fixpoint trimStart (s : string) : string :=
  match s with
  | EmptyString => EmptyString
  | String c s' => if is_space c then trimStart s' else s
  end.

Fixpoint trimEnd (s : string) : string :=
  match s with
  | EmptyString => EmptyString
  | String c s' =>
      match trimEnd s' with
      | EmptyString => if is_space c then EmptyString else String c EmptyString
      | t => String c t
      end
  end.

Definition trim (s : string) : string := trimEnd (trimStart s).

(** A string that does not start with white space: what [trimStart] returns,
    and what [trimEnd] keeps. *)
Definition no_leading_space (s : string) : Prop :=
  match s with
  | EmptyString => True
  | String c _ => is_space c = false
  end.

(** A request field: a string, or missing ([undefined]). *)
Definition value := option string.

(** [!v] is false exactly on a non-empty string. *)
Definition truthy (v : value) : bool :=
  match v with
  | Some s => negb (s =? "")
  | None => false
  end.

(** [v || ''] *)
Definition or_empty (v : value) : string :=
  match v with
  | Some s => s
  | None => ""
  end.

(** [`${v}`]: how a template literal (and the query builder's filter) prints
    a field. *)
Definition template (v : value) : string :=
  match v with
  | Some s => s
  | None => "undefined"
  end.

(** [/^Bearer\s+(.+)$/i]: the first capture group, when the string matches.
    After the keyword the greedy [\s+] takes the whole run of white space;
    when nothing follows it gives one code unit back to [(.+)]. *)
Fixpoint all_dot (s : string) : bool :=
  match s with
  | EmptyString => true
  | String c s' => negb (is_line_terminator c) && all_dot s'
  end.

Fixpoint last_char (s : string) : option ascii :=
  match s with
  | EmptyString => None
  | String c EmptyString => Some c
  | String _ s' => last_char s'
  end.

Definition match_bearer (h : string) : option string :=
  if (toLowerCase (substring 0 6 h) =? "bearer") && (6 <=? String.length h)%nat then
    let rest := substring 6 (String.length h - 6) h in
    let tail := trimStart rest in
    let k := String.length rest - String.length tail in
    if (k =? 0)%nat then None
    else match tail with
         | String _ _ => if all_dot tail then Some tail else None
         | EmptyString =>
             match last_char rest with
             | Some c =>
                 if (2 <=? k)%nat && negb (is_line_terminator c)
                 then Some (String c EmptyString) else None
             | None => None
             end
         end
  else None.

End Js.

Import Js.

(** ** Data model *)

(** A row of [public.users]. *)
Module User.
Record t : Type := mk {
  id : nat;
  name : string;
  email : string;
  pass_hash : string;
  approved : bool;
  created_at : Z
}.
Definition set_approved (b : bool) (u : t) : t :=
  mk (id u) (name u) (email u) (pass_hash u) b (created_at u).
Definition set_pass_hash (h : string) (u : t) : t :=
  mk (id u) (name u) (email u) h (approved u) (created_at u).
End User.

(** A row of [public.resets]; [expires_at] in milliseconds since the epoch. *)
Module Reset.
Record t : Type := mk {
  id : nat;
  email : string;
  token : string;
  expires_at : Z;
  created_at : Z
}.
End Reset.

(** A message handed to the SMTP transport. *)
Record Mail : Type := {
  mail_from : value;
  mail_to : string;
  mail_subject : string;
  mail_text : string
}.

(** What a handler may throw. *)
Inductive Error : Type :=
| StoreFailure (* the store answered with an error *)
| MultipleRows (* maybeSingle found more than one row *)
| UniqueViolation (* users.email is unique *)
| MailFailure. (* the transport rejected the message *)

(** The world a request runs in: both tables, the key generator of the store,
    the mail that left, and what was written to the console. *)
Record World : Type := {
  users : list User.t;
  resets : list Reset.t;
  next_id : nat;
  outbox : list Mail;
  console : list (string * Error)
}.

Definition with_users (us : list User.t) (w : World) : World :=
  {| users := us; resets := resets w; next_id := next_id w;
     outbox := outbox w; console := console w |}.
Definition with_resets (rs : list Reset.t) (w : World) : World :=
  {| users := users w; resets := rs; next_id := next_id w;
     outbox := outbox w; console := console w |}.
Definition with_next_id (n : nat) (w : World) : World :=
  {| users := users w; resets := resets w; next_id := n;
     outbox := outbox w; console := console w |}.
Definition with_outbox (ms : list Mail) (w : World) : World :=
  {| users := users w; resets := resets w; next_id := next_id w;
     outbox := ms; console := console w |}.
Definition with_console (l : list (string * Error)) (w : World) : World :=
  {| users := users w; resets := resets w; next_id := next_id w;
     outbox := outbox w; console := l |}.

(** [process.env], read once at start-up. *)
Record Config : Type := {
  JWT_SECRET : string;
  ADMIN_EMAIL : string;
  ADMIN_CODE : string;
  SMTP_HOST : value;
  SMTP_PORT : value;
  SMTP_USER : value;
  SMTP_PASS : value;
  MAIL_FROM : value
}.

(** What the outside decides during one request. *)
Record Env : Type := {
  now : Z;                 (* Date.now() *)
  random_hex : string;     (* crypto.randomBytes(24).toString('hex') *)
  salt : string;           (* the salt bcrypt.hash draws *)
  select_error : bool;     (* the select of this request fails *)
  insert_error : bool;
  update_error : bool;
  delete_error : bool;
  mail_error : bool        (* transporter.sendMail rejects *)
}.

(** The parsed request: JSON body fields and the Authorization header. *)
Record Request : Type := {
  r_name : value;
  r_email : value;
  r_password : value;
  r_code : value;
  r_token : value;
  r_oldPassword : value;
  r_newPassword : value;
  authorization : value
}.

Inductive Body : Type :=
| Message (message : string)
| Session (token : string) (id : nat) (email name : string).

Record Response : Type := { status : nat; body : Body }.

(** The payload of a bearer token. *)
Record Claims : Type := { uid : nat; c_email : string; c_name : string }.

(** ** The Supabase client *)

(** Every call resolves to [{ data, error }]; it never throws. *)
Record Reply (A : Type) : Type := { data : option A; error : option Error }.
Arguments data {A} _.
Arguments error {A} _.

Definition ok {A} (d : option A) : Reply A := {| data := d; error := None |}.
Definition failed {A} (e : Error) : Reply A := {| data := None; error := Some e |}.

(** [.eq(column, value)] on a text column and on a key. *)
Definition eq_text {Row} (col : Row -> string) (v : string) (rows : list Row) : list Row :=
  filter (fun r => col r =? v) rows.
Definition eq_id {Row} (col : Row -> nat) (v : nat) (rows : list Row) : list Row :=
  filter (fun r => col r =? v)%nat rows.

(** [.maybeSingle()]: no row is [null], one row is the row, more is an error. *)
Definition maybeSingle {Row} (rows : list Row) : Reply Row :=
  match rows with
  | [] => ok None
  | [r] => ok (Some r)
  | _ => failed MultipleRows
  end.

Definition select_maybeSingle {Row} (env : Env) (rows : list Row) : Reply Row :=
  if select_error env then failed StoreFailure else maybeSingle rows.

(** [.update(f).eq(...)]: every row the filter keeps is rewritten. *)
Definition update_where {Row} (p : Row -> bool) (f : Row -> Row) (rows : list Row) : list Row :=
  map (fun r => if p r then f r else r) rows.

(** [from('users').insert({ name, email, pass_hash, approved })]. *)
Definition insert_user (env : Env) (name email pass_hash : string) (approved : bool)
  (w : World) : Reply unit * World :=
  if insert_error env then (failed StoreFailure, w)
  else if existsb (fun u => User.email u =? email) (users w)
  then (failed UniqueViolation, w)
  else (ok None,
        with_next_id (S (next_id w))
          (with_users (users w ++ [User.mk (next_id w) name email pass_hash approved (now env)]) w)).

(** [from('users').update(f).eq(...)]. *)
Definition update_users (env : Env) (p : User.t -> bool) (f : User.t -> User.t)
  (w : World) : Reply unit * World :=
  if update_error env then (failed StoreFailure, w)
  else (ok None, with_users (update_where p f (users w)) w).

(** [from('resets').insert({ email, token, expires_at })]. *)
Definition insert_reset (env : Env) (email token : string) (expires_at : Z)
  (w : World) : Reply unit * World :=
  if insert_error env then (failed StoreFailure, w)
  else (ok None,
        with_next_id (S (next_id w))
          (with_resets (resets w ++ [Reset.mk (next_id w) email token expires_at (now env)]) w)).

(** [from('resets').delete().eq('id', id)]. *)
Definition delete_reset (env : Env) (id : nat) (w : World) : Reply unit * World :=
  if delete_error env then (failed StoreFailure, w)
  else (ok None, with_resets (filter (fun r => negb (Reset.id r =? id)%nat) (resets w)) w).

(** ** Control flow of a handler body *)

(** A step either goes on with a value, has sent the response ([return
    res...]), or has thrown. *)
Inductive Flow (A : Type) : Type :=
| Next (a : A)
| Sent (r : Response)
| Thrown (e : Error).
Arguments Next {A} a.
Arguments Sent {A} r.
Arguments Thrown {A} e.

Definition Act (A : Type) : Type := World -> Flow A * World.

Definition ret {A} (a : A) : Act A := fun w => (Next a, w).
Definition bind {A B} (m : Act A) (k : A -> Act B) : Act B :=
  fun w =>
    match m w with
    | (Next a, w') => k a w'
    | (Sent r, w') => (Sent r, w')
    | (Thrown e, w') => (Thrown e, w')
    end.
Definition send {A} (st : nat) (b : Body) : Act A :=
  fun w => (Sent {| status := st; body := b |}, w).
Definition throw {A} (e : Error) : Act A := fun w => (Thrown e, w).
Definition get : Act World := fun w => (Next w, w).
Definition call {A} (f : World -> Reply A * World) : Act (Reply A) :=
  fun w => let (r, w') := f w in (Next r, w').
Definition query {A} (f : World -> Reply A) : Act (Reply A) :=
  fun w => (Next (f w), w).

Notation "x <- m ;; k" := (bind m (fun x => k))
  (at level 61, m at next level, right associativity).
Notation "m ;;; k" := (bind m (fun _ => k))
  (at level 61, right associativity).

(** [if (error) throw error] *)
Definition throw_if {A} (r : Reply A) : Act unit :=
  match error r with
  | Some e => throw e
  | None => ret tt
  end.

(** [res.status(st).json({ message })] and [res.json({ message })]. *)
Definition json_message {A} (st : nat) (m : string) : Act A := send st (Message m).

Definition Handler : Type := World -> Response * World.

(** [try { ... } catch (e) { console.error(tag, e); res.status(500)... }] *)
Definition try_catch (tag : string) (b : Act Response) : Handler :=
  fun w =>
    match b w with
    | (Next r, w') => (r, w')
    | (Sent r, w') => (r, w')
    | (Thrown e, w') =>
        ({| status := 500; body := Message "Lỗi server" |},
         with_console (console w' ++ [(tag, e)]) w')
    end.

(** ** The server *)

(** The SMTP transport built from the configuration. *)
Record Transporter : Type := {
  host : string;
  port : string;
  auth_user : string;
  auth_pass : string
}.

(** [a || b] on fields. *)
Definition or_else (a b : value) : value := if truthy a then a else b.

Definition newline : string := String (ascii_of_nat 10) EmptyString.

Section Server.

(** bcryptjs: [hash(password, cost)] with the salt it draws made explicit, and
    [compare(password, digest)]. *)
Variable bcrypt_hash : string -> nat -> string -> string.
Variable bcrypt_compare : string -> string -> bool.

(** jsonwebtoken: [sign(payload, secret, { expiresIn: '7d' })] at a given
    time, and [verify(token, secret)], which throws ([None]) on a bad or
    expired token. *)
Variable jwt_sign : Claims -> string -> Z -> string.
Variable jwt_verify : string -> string -> Z -> option Claims.

Variable cfg : Config.

Definition getTransporter : option Transporter :=
  if negb (truthy (SMTP_HOST cfg)) || negb (truthy (SMTP_PORT cfg))
     || negb (truthy (SMTP_USER cfg)) || negb (truthy (SMTP_PASS cfg))
  then None
  else Some {| host := template (SMTP_HOST cfg); port := template (SMTP_PORT cfg);
               auth_user := template (SMTP_USER cfg);
               auth_pass := template (SMTP_PASS cfg) |}.

(** [tp.sendMail(m)]: the message leaves, or the promise rejects. *)
Definition transport_sendMail (env : Env) (tp : Transporter) (m : Mail) : Act unit :=
  fun w =>
    if mail_error env then (Thrown MailFailure, w)
    else (Next tt, with_outbox (outbox w ++ [m]) w).

Definition sendMail (env : Env) (to subject text : string) : Act unit :=
  match getTransporter with
  | None => ret tt
  | Some tp =>
      transport_sendMail env tp
        {| mail_from := or_else (MAIL_FROM cfg) (SMTP_USER cfg);
           mail_to := to; mail_subject := subject; mail_text := text |}
  end.

(** The mailer of the repository's other server file (the one that also sets
    the anti-cache headers): the transport needs host, user and password only
    (the port defaults to 587), and the send stands inside
    [try { ... } catch (e) { console.error('[mail]', e) }]. *)
Definition getTransporter_other : option Transporter :=
  if negb (truthy (SMTP_HOST cfg)) || negb (truthy (SMTP_USER cfg))
     || negb (truthy (SMTP_PASS cfg))
  then None
  else Some {| host := template (SMTP_HOST cfg);
               port := template (or_else (SMTP_PORT cfg) (Some "587"));
               auth_user := template (SMTP_USER cfg);
               auth_pass := template (SMTP_PASS cfg) |}.

Definition sendMail_guarded (env : Env) (to subject text : string) : Act unit :=
  fun w =>
    match getTransporter_other with
    | None => (Next tt, w)
    | Some tp =>
        match transport_sendMail env tp
                {| mail_from := or_else (MAIL_FROM cfg) (SMTP_USER cfg);
                   mail_to := to; mail_subject := subject; mail_text := text |} w with
        | (Thrown e, w') => (Next tt, with_console (console w' ++ [("[mail]", e)]) w')
        | other => other
        end
    end.

Definition signToken (env : Env) (payload : Claims) : string :=
  jwt_sign payload (JWT_SECRET cfg) (now env).

(** The [auth] middleware in front of a handler that reads [req.user]. *)
Definition auth (env : Env) (req : Request) (next : Claims -> Handler) : Handler :=
  match match_bearer (or_empty (authorization req)) with
  | None => fun w => ({| status := 401; body := Message "Missing token" |}, w)
  | Some t =>
      match jwt_verify t (JWT_SECRET cfg) (now env) with
      | Some user => next user
      | None => fun w => ({| status := 401; body := Message "Invalid token" |}, w)
      end
  end.

(** [String(email).trim().toLowerCase()] *)
Definition normalize (s : string) : string := toLowerCase (trim s).

(** POST /api/auth/register *)
Definition register (env : Env) (req : Request) : Handler :=
  try_catch "[register]"
    (let name := r_name req in
     let email := r_email req in
     let password := r_password req in
     if negb (truthy name) || negb (truthy email) || negb (truthy password)
     then json_message 400 "Thiếu trường bắt buộc"
     else
       let lower := normalize (template email) in
       q <- query (fun w => select_maybeSingle env (eq_text User.email lower (users w))) ;;
       throw_if q ;;;
       match data q with
       | Some _ => json_message 400 "Email đã tồn tại"
       | None =>
           let pass_hash := bcrypt_hash (template password) 8 (salt env) in
           i <- call (insert_user env (template name) lower pass_hash false) ;;
           throw_if i ;;;
           (if negb (ADMIN_EMAIL cfg =? "")
            then sendMail env (ADMIN_EMAIL cfg) "Yêu cầu duyệt tài khoản mới"
                   ("Người dùng mới: " ++ template name ++ " <" ++ lower
                    ++ ">. Dùng ADMIN_CODE để duyệt qua /api/auth/approve.")
            else ret tt) ;;;
           json_message 200 "Đăng ký thành công. Vui lòng đợi admin phê duyệt."
       end).

(** POST /api/auth/approve *)
Definition approve (env : Env) (req : Request) : Handler :=
  try_catch "[approve]"
    (let email := r_email req in
     let code := r_code req in
     if negb (truthy email) || negb (truthy code)
     then json_message 400 "Thiếu email/code"
     else if (ADMIN_CODE cfg =? "") || negb (template code =? ADMIN_CODE cfg)
     then json_message 403 "Sai mã admin"
     else
       let lower := normalize (template email) in
       u <- call (update_users env (fun u => User.email u =? lower)
                    (User.set_approved true)) ;;
       throw_if u ;;;
       json_message 200 "Đã duyệt").

(** POST /api/auth/login *)
Definition login (env : Env) (req : Request) : Handler :=
  try_catch "[login]"
    (let email := r_email req in
     let password := r_password req in
     let lower := normalize (or_empty email) in
     q <- query (fun w => select_maybeSingle env (eq_text User.email lower (users w))) ;;
     throw_if q ;;;
     match data q with
     | None => json_message 400 "Email hoặc mật khẩu sai"
     | Some u =>
         if negb (User.approved u)
         then json_message 403 "Tài khoản chưa được duyệt"
         else if negb (bcrypt_compare (or_empty password) (User.pass_hash u))
         then json_message 400 "Email hoặc mật khẩu sai"
         else
           let token :=
             signToken env {| uid := User.id u; c_email := User.email u;
                              c_name := User.name u |} in
           send 200 (Session token (User.id u) (User.email u) (User.name u))
     end).

(** POST /api/auth/forgot *)
Definition forgot (env : Env) (req : Request) : Handler :=
  try_catch "[forgot]"
    (let email := r_email req in
     let lower := normalize (or_empty email) in
     q <- query (fun w => select_maybeSingle env (eq_text User.email lower (users w))) ;;
     throw_if q ;;;
     match data q with
     | Some _ =>
         let token := random_hex env in
         let expires_at := (now env + 1000 * 60 * 30)%Z in
         i <- call (insert_reset env lower token expires_at) ;;
         throw_if i ;;;
         sendMail env lower "Đặt lại mật khẩu"
           ("Mã đặt lại: " ++ token ++ newline ++ "Hết hạn sau 30 phút.")
     | None => ret tt
     end ;;;
     json_message 200 "Nếu email tồn tại, chúng tôi đã gửi hướng dẫn.").

(** POST /api/auth/reset *)
Definition reset (env : Env) (req : Request) : Handler :=
  try_catch "[reset]"
    (let email := r_email req in
     let token := r_token req in
     let newPassword := r_newPassword req in
     let lower := normalize (or_empty email) in
     q <- query (fun w =>
            select_maybeSingle env
              (eq_text Reset.token (template token)
                 (eq_text Reset.email lower (resets w)))) ;;
     throw_if q ;;;
     match data q with
     | None => json_message 400 "Token không hợp lệ"
     | Some r =>
         if (Reset.expires_at r <? now env)%Z
         then json_message 400 "Token đã hết hạn"
         else
           let pass_hash := bcrypt_hash (or_empty newPassword) 8 (salt env) in
           u <- call (update_users env (fun u => User.email u =? lower)
                        (User.set_pass_hash pass_hash)) ;;
           throw_if u ;;;
           _ <- call (delete_reset env (Reset.id r)) ;;
           json_message 200 "Đã đặt lại mật khẩu"
     end).

(** POST /api/auth/change-password, behind [auth]. *)
Definition change_password (env : Env) (req : Request) : Handler :=
  auth env req (fun user =>
    try_catch "[change-password]"
      (let oldPassword := r_oldPassword req in
       let newPassword := r_newPassword req in
       if negb (truthy newPassword)
       then json_message 400 "Thiếu mật khẩu mới"
       else
         q <- query (fun w => select_maybeSingle env (eq_id User.id (uid user) (users w))) ;;
         throw_if q ;;;
         match data q with
         | None => json_message 404 "Không tìm thấy người dùng"
         | Some u =>
             if negb (bcrypt_compare (or_empty oldPassword) (User.pass_hash u))
             then json_message 400 "Mật khẩu hiện tại không đúng"
             else
               let pass_hash := bcrypt_hash (template newPassword) 8 (salt env) in
               e <- call (update_users env (fun u => (User.id u =? uid user)%nat)
                            (User.set_pass_hash pass_hash)) ;;
               throw_if e ;;;
               json_message 200 "Đã đổi mật khẩu"
         end)).

End Server.

(** ** Test doubles for the external libraries

    A hasher that stores the password itself and a token format that prints
    the user id: enough to run the handlers on concrete requests. *)

Definition plain_hash (password : string) (cost : nat) (salt : string) : string := password.
Definition plain_compare (password digest : string) : bool := password =? digest.

Definition demo_sign (c : Claims) (secret : string) (t : Z) : string :=
  if (uid c =? 0)%nat then "token-0" else "token-n".
Definition demo_verify (token secret : string) (t : Z) : option Claims :=
  if token =? "token-0" then Some {| uid := 0; c_email := "a@x.com"; c_name := "A" |}
  else None.

Definition demo_cfg : Config :=
  {| JWT_SECRET := "dev-secret"; ADMIN_EMAIL := "admin@x.com"; ADMIN_CODE := "s3cret";
     SMTP_HOST := Some "smtp.x.com"; SMTP_PORT := Some "587";
     SMTP_USER := Some "mailer"; SMTP_PASS := Some "pw"; MAIL_FROM := None |}.

(** A request environment at time [t] in which nothing fails. *)
Definition calm (t : Z) : Env :=
  {| now := t; random_hex := "00112233445566778899aabbccddeeff0011223344556677";
     salt := "salt"; select_error := false; insert_error := false;
     update_error := false; delete_error := false; mail_error := false |}.

Definition empty_world : World :=
  {| users := []; resets := []; next_id := 0; outbox := []; console := [] |}.

(** The same environment with the mail transport down. *)
Definition mail_down (t : Z) : Env :=
  {| now := t; random_hex := random_hex (calm t); salt := "salt";
     select_error := false; insert_error := false; update_error := false;
     delete_error := false; mail_error := true |}.

(** The same environment with the delete call failing. *)
Definition delete_down (t : Z) : Env :=
  {| now := t; random_hex := random_hex (calm t); salt := "salt";
     select_error := false; insert_error := false; update_error := false;
     delete_error := true; mail_error := false |}.

Definition demo_user (approved : bool) : User.t :=
  User.mk 0 "A" "a@x.com" "p1" approved 0.

Definition demo_reset : Reset.t :=
  Reset.mk 1 "a@x.com" "t0k3n" 1800000 0.

Definition demo_world (approved : bool) : World :=
  {| users := [demo_user approved]; resets := [demo_reset]; next_id := 2;
     outbox := []; console := [] |}.

Definition register_request (name email password : string) : Request :=
  {| r_name := Some name; r_email := Some email; r_password := Some password;
     r_code := None; r_token := None; r_oldPassword := None;
     r_newPassword := None; authorization := None |}.

Definition approve_request (email code : string) : Request :=
  {| r_name := None; r_email := Some email; r_password := None;
     r_code := Some code; r_token := None; r_oldPassword := None;
     r_newPassword := None; authorization := None |}.

Definition login_request (email password : string) : Request :=
  {| r_name := None; r_email := Some email; r_password := Some password;
     r_code := None; r_token := None; r_oldPassword := None;
     r_newPassword := None; authorization := None |}.

Definition forgot_request (email : string) : Request :=
  {| r_name := None; r_email := Some email; r_password := None;
     r_code := None; r_token := None; r_oldPassword := None;
     r_newPassword := None; authorization := None |}.

Definition reset_request (email token : string) (newPassword : value) : Request :=
  {| r_name := None; r_email := Some email; r_password := None;
     r_code := None; r_token := Some token; r_oldPassword := None;
     r_newPassword := newPassword; authorization := None |}.

Definition change_request (bearer oldPassword newPassword : string) : Request :=
  {| r_name := None; r_email := None; r_password := None;
     r_code := None; r_token := None; r_oldPassword := Some oldPassword;
     r_newPassword := Some newPassword; authorization := Some bearer |}.

(** [req] with another [email] field. *)
Definition with_email (e : value) (req : Request) : Request :=
  {| r_name := r_name req; r_email := e; r_password := r_password req;
     r_code := r_code req; r_token := r_token req;
     r_oldPassword := r_oldPassword req; r_newPassword := r_newPassword req;
     authorization := authorization req |}.

(** The rows a reset request selects. *)
Definition matching_resets (email token : string) (w : World) : list Reset.t :=
  eq_text Reset.token token (eq_text Reset.email email (resets w)).

(** The constraints the store keeps: [users.email] is unique, keys are unique
    and were handed out by the key generator. *)
Record store_ok (w : World) : Prop := {
  unique_emails : NoDup (map User.email (users w));
  unique_user_ids : NoDup (map User.id (users w));
  unique_reset_ids : NoDup (map Reset.id (resets w));
  user_ids_issued : forall u, In u (users w) -> User.id u < next_id w;
  reset_ids_issued : forall r, In r (resets w) -> Reset.id r < next_id w
}.

(** A step keeps a property of the world. *)
Definition preserves {A} (P : World -> Prop) (m : Act A) : Prop :=
  forall w, P w -> P (snd (m w)).

Definition handler_preserves (P : World -> Prop) (h : Handler) : Prop :=
  forall w, P w -> P (snd (h w)).

(** ** The CORS guard *)


(** [String(process.env.PERMISSIVE_CORS || 'true').toLowerCase() === 'true'] *)
Definition PERMISSIVE_CORS (setting : value) : bool :=
  toLowerCase (template (or_else setting (Some "true"))) =? "true".









(** ** The routes, and runs of the service *)

(** The six POST routes under /api/auth. *)
Inductive Endpoint : Type :=
| Register | Approve | Login | Forgot | ResetPassword | ChangePassword.

Section Routes.

Variable bcrypt_hash : string -> nat -> string -> string.
Variable bcrypt_compare : string -> string -> bool.
Variable jwt_sign : Claims -> string -> Z -> string.
Variable jwt_verify : string -> string -> Z -> option Claims.
Variable cfg : Config.

Definition serve (ep : Endpoint) (env : Env) (req : Request) : Handler :=
  match ep with
  | Register => register bcrypt_hash cfg env req
  | Approve => approve cfg env req
  | Login => login bcrypt_compare jwt_sign cfg env req
  | Forgot => forgot cfg env req
  | ResetPassword => reset bcrypt_hash env req
  | ChangePassword => change_password bcrypt_hash bcrypt_compare jwt_verify cfg env req
  end.

(** Requests served one after the other, each in its own environment. *)
Fixpoint run (trace : list (Endpoint * Env * Request)) (w : World) : World :=
  match trace with
  | [] => w
  | (ep, env, req) :: rest => run rest (snd (serve ep env req w))
  end.

End Routes.

(** Every stored email is in normal form. *)
Definition emails_normal (w : World) : Prop :=
  forall u, In u (users w) -> normalize (User.email u) = User.email u.

(** Every reset row is for the email of a user. *)
Definition resets_have_users (w : World) : Prop :=
  forall r, In r (resets w) -> In (Reset.email r) (map User.email (users w)).

(** [u'] is the row [u] after some requests: same key, name, email and
    creation time, and still approved if it was. *)
Definition same_account (u u' : User.t) : Prop :=
  User.id u' = User.id u /\ User.name u' = User.name u /\
  User.email u' = User.email u /\ User.created_at u' = User.created_at u /\
  (User.approved u = true -> User.approved u' = true).

(** White space only. *)
Fixpoint all_space (s : string) : bool :=
  match s with
  | EmptyString => true
  | String c s' => is_space c && all_space s'
  end.

(** [env] with the mail transport failing or not. *)
Definition with_mail_error (b : bool) (env : Env) : Env :=
  {| now := now env; random_hex := random_hex env; salt := salt env;
     select_error := select_error env; insert_error := insert_error env;
     update_error := update_error env; delete_error := delete_error env;
     mail_error := b |}.

(** The store does not answer: every call of the request fails. *)
Definition store_down (env : Env) : Prop :=
  select_error env = true /\ insert_error env = true /\
  update_error env = true /\ delete_error env = true.

(** A second account, and a world that holds both. *)
Definition demo_other : User.t :=
  User.mk 3 "B" "b@x.com" "q1" true 0.

Definition pair_world : World :=
  {| users := [demo_user true; demo_other]; resets := [demo_reset]; next_id := 4;
     outbox := []; console := [] |}.

(** An environment at time [t] in which no store call is carried out. *)
Definition all_down (t : Z) : Env :=
  {| now := t; random_hex := random_hex (calm t); salt := "salt";
     select_error := true; insert_error := true; update_error := true;
     delete_error := true; mail_error := false |}.

(** The configuration without an SMTP password. *)
Definition quiet_cfg : Config :=
  {| JWT_SECRET := "dev-secret"; ADMIN_EMAIL := "admin@x.com"; ADMIN_CODE := "s3cret";
     SMTP_HOST := Some "smtp.x.com"; SMTP_PORT := Some "587";
     SMTP_USER := Some "mailer"; SMTP_PASS := None; MAIL_FROM := None |}.

(** A short run: a registration, its approval, a login, a forgot request and
    the reset that uses its token. *)
Definition demo_trace : list (Endpoint * Env * Request) :=
  [(Register, calm 1000, register_request "B" " B@x.com" "p9");
   (Approve, calm 2000, approve_request "b@x.com" "s3cret");
   (Login, calm 3000, login_request "b@x.com" "p9");
   (Forgot, calm 4000, forgot_request "B@X.COM");
   (ResetPassword, calm 5000,
    reset_request "b@x.com" (random_hex (calm 4000)) (Some "p10"))].

(** * Properties *)

(** ** Strings *)

Module JsFacts.

Lemma lower_char_idem (c : ascii) : lower_char (lower_char c) = lower_char c.
Proof. destruct c as [[] [] [] [] [] [] [] []]; reflexivity. Qed.

Lemma is_space_lower_char (c : ascii) : is_space (lower_char c) = is_space c.
Proof. destruct c as [[] [] [] [] [] [] [] []]; reflexivity. Qed.

Lemma toLowerCase_idem (s : string) : toLowerCase (toLowerCase s) = toLowerCase s.
Proof.
  induction s as [|c s IH]; simpl; [reflexivity|].
  now rewrite lower_char_idem, IH.
Qed.

Lemma toLowerCase_empty (s : string) : toLowerCase s = "" <-> s = "".
Proof. destruct s; simpl; split; congruence. Qed.

Lemma toLowerCase_trimStart (s : string) :
  toLowerCase (trimStart s) = trimStart (toLowerCase s).
Proof.
  induction s as [|c s IH]; simpl; [reflexivity|].
  rewrite is_space_lower_char. destruct (is_space c); [exact IH | reflexivity].
Qed.

Lemma toLowerCase_trimEnd (s : string) :
  toLowerCase (trimEnd s) = trimEnd (toLowerCase s).
Proof.
  induction s as [|c s IH]; simpl; [reflexivity|].
  rewrite <- IH, is_space_lower_char.
  destruct (trimEnd s) as [|d t]; simpl.
  - destruct (is_space c); reflexivity.
  - reflexivity.
Qed.

(** Lower-casing and trimming commute: the order in which a sentence names
    them does not matter. *)
Lemma toLowerCase_trim (s : string) : toLowerCase (trim s) = trim (toLowerCase s).
Proof. unfold trim. now rewrite toLowerCase_trimEnd, toLowerCase_trimStart. Qed.

Lemma trimEnd_cons (c : ascii) (s : string) :
  trimEnd (String c s) =
  match trimEnd s with
  | EmptyString => if is_space c then EmptyString else String c EmptyString
  | t => String c t
  end.
Proof. reflexivity. Qed.

Lemma trimEnd_idem (s : string) : trimEnd (trimEnd s) = trimEnd s.
Proof.
  induction s as [|c s IH]; [reflexivity|].
  rewrite trimEnd_cons.
  destruct (trimEnd s) as [|d t] eqn:E.
  - destruct (is_space c) eqn:Ec; [reflexivity|].
    rewrite trimEnd_cons. simpl. now rewrite Ec.
  - rewrite trimEnd_cons, IH. reflexivity.
Qed.

Lemma trimStart_no_leading_space (s : string) : no_leading_space (trimStart s).
Proof.
  induction s as [|c s IH]; simpl; [exact I|].
  destruct (is_space c) eqn:E; [exact IH | exact E].
Qed.

Lemma trimEnd_no_leading_space (s : string) :
  no_leading_space s -> no_leading_space (trimEnd s).
Proof.
  destruct s as [|c s]; simpl; [trivial|]. intros H.
  destruct (trimEnd s); [rewrite H|]; simpl; trivial.
Qed.

Lemma trimStart_fixed (s : string) : no_leading_space s -> trimStart s = s.
Proof. destruct s as [|c s]; simpl; [trivial|]. now intros ->. Qed.

Lemma trim_idem (s : string) : trim (trim s) = trim s.
Proof.
  unfold trim.
  rewrite (trimStart_fixed (trimEnd (trimStart s))).
  - apply trimEnd_idem.
  - apply trimEnd_no_leading_space, trimStart_no_leading_space.
Qed.

Lemma normalize_idem (s : string) : normalize (normalize s) = normalize s.
Proof.
  unfold normalize.
  now rewrite <- toLowerCase_trim, toLowerCase_idem, trim_idem.
Qed.

(** The normal form the handlers compute is the one obtained by lower-casing
    first and trimming afterwards. *)
Lemma normalize_trim_lower (s : string) : normalize s = trim (toLowerCase s).
Proof. apply toLowerCase_trim. Qed.

Lemma normalize_of_normal_form (s : string) :
  normalize (trim (toLowerCase s)) = normalize s.
Proof. rewrite <- normalize_trim_lower. apply normalize_idem. Qed.

End JsFacts.

(** ** The store *)

Section StoreFacts.

Context {Row : Type}.

Lemma eq_text_none (col : Row -> string) (v : string) (rows : list Row) :
  ~ In v (map col rows) -> eq_text col v rows = [].
Proof.
  unfold eq_text. induction rows as [|a rows IH]; simpl; [reflexivity|].
  intros H. destruct (col a =? v) eqn:E.
  - apply String.eqb_eq in E. tauto.
  - apply IH. tauto.
Qed.

Lemma eq_text_unique (col : Row -> string) (rows : list Row) (x : Row) :
  NoDup (map col rows) -> In x rows -> eq_text col (col x) rows = [x].
Proof.
  induction rows as [|a rows IH]; simpl; [tauto|].
  intros ND [-> | Hin]; inversion ND as [|? ? Hnotin ND']; subst.
  - rewrite String.eqb_refl. f_equal. now apply eq_text_none.
  - destruct (col a =? col x) eqn:E.
    + apply String.eqb_eq in E. exfalso. apply Hnotin. rewrite E. now apply in_map.
    + now apply IH.
Qed.

Lemma eq_id_none (col : Row -> nat) (v : nat) (rows : list Row) :
  ~ In v (map col rows) -> eq_id col v rows = [].
Proof.
  unfold eq_id. induction rows as [|a rows IH]; simpl; [reflexivity|].
  intros H. destruct (Nat.eqb_spec (col a) v).
  - tauto.
  - apply IH. tauto.
Qed.

Lemma eq_id_unique (col : Row -> nat) (rows : list Row) (x : Row) :
  NoDup (map col rows) -> In x rows -> eq_id col (col x) rows = [x].
Proof.
  induction rows as [|a rows IH]; simpl; [tauto|].
  intros ND [-> | Hin]; inversion ND as [|? ? Hnotin ND']; subst.
  - rewrite Nat.eqb_refl. f_equal. now apply eq_id_none.
  - destruct (Nat.eqb_spec (col a) (col x)) as [E|E].
    + exfalso. apply Hnotin. rewrite E. now apply in_map.
    + now apply IH.
Qed.

Lemma eq_text_In (col : Row -> string) (v : string) (rows : list Row) (x : Row) :
  In x (eq_text col v rows) <-> In x rows /\ col x = v.
Proof. unfold eq_text. rewrite filter_In, String.eqb_eq. reflexivity. Qed.

Lemma NoDup_map_filter {K} (key : Row -> K) (p : Row -> bool) (rows : list Row) :
  NoDup (map key rows) -> NoDup (map key (filter p rows)).
Proof.
  induction rows as [|a rows IH]; simpl; [trivial|].
  intros ND. inversion ND as [|? ? Hnotin ND']; subst.
  destruct (p a); simpl; [constructor|]; auto.
  intros Hin. apply Hnotin. apply in_map_iff in Hin as (y & <- & Hy).
  apply in_map. now apply filter_In in Hy.
Qed.

Lemma filter_comm (p q : Row -> bool) (rows : list Row) :
  filter p (filter q rows) = filter q (filter p rows).
Proof.
  induction rows as [|a rows IH]; simpl; [reflexivity|].
  destruct (q a) eqn:Eq, (p a) eqn:Ep; simpl; rewrite ?Eq, ?Ep, IH; reflexivity.
Qed.

(** An update whose filter keeps no row changes nothing. *)
Lemma update_where_none (p : Row -> bool) (f : Row -> Row) (rows : list Row) :
  (forall r, In r rows -> p r = false) -> update_where p f rows = rows.
Proof.
  unfold update_where. induction rows as [|a rows IH]; simpl; [reflexivity|].
  intros H. rewrite (H a (or_introl eq_refl)), IH; auto.
Qed.

Lemma update_where_In (p : Row -> bool) (f : Row -> Row) (rows : list Row) (y : Row) :
  In y (update_where p f rows) <->
  exists x, In x rows /\ y = (if p x then f x else x).
Proof.
  unfold update_where. rewrite in_map_iff. split; intros (x & H1 & H2); exists x; auto.
Qed.

End StoreFacts.

(** A token that was issued once selects one row. *)
Lemma matching_resets_unique (w : World) (r : Reset.t) :
  NoDup (map Reset.token (resets w)) -> In r (resets w) ->
  matching_resets (Reset.email r) (Reset.token r) w = [r].
Proof.
  intros ND Hin. unfold matching_resets.
  apply eq_text_unique.
  - now apply NoDup_map_filter.
  - now apply eq_text_In.
Qed.

Lemma matching_resets_In (email token : string) (w : World) (r : Reset.t) :
  In r (matching_resets email token w) <->
  In r (resets w) /\ Reset.email r = email /\ Reset.token r = token.
Proof. unfold matching_resets. rewrite !eq_text_In. tauto. Qed.

(** Deleting by key removes every selected row that carries the key. *)
Lemma matching_resets_delete (email token : string) (w : World) (r : Reset.t) :
  matching_resets email token w = [r] ->
  matching_resets email token
    (with_resets (filter (fun x => negb (Reset.id x =? Reset.id r)%nat) (resets w)) w) = [].
Proof.
  unfold matching_resets, eq_text. simpl. intros H.
  rewrite (filter_comm _ (fun x => negb (Reset.id x =? Reset.id r)%nat)).
  rewrite (filter_comm _ (fun x => negb (Reset.id x =? Reset.id r)%nat)).
  rewrite H. simpl. now rewrite Nat.eqb_refl.
Qed.

(** ** The handlers *)

Ltac unfold_handler :=
  unfold register, approve, login, forgot, reset, change_password, auth,
    try_catch, bind, query, call, throw_if, json_message, send, ret, throw,
    select_maybeSingle, update_users, insert_user, insert_reset, delete_reset.

Section Contract.

Variable bcrypt_hash : string -> nat -> string -> string.
Variable bcrypt_compare : string -> string -> bool.
Variable jwt_sign : Claims -> string -> Z -> string.
Variable jwt_verify : string -> string -> Z -> option Claims.
Variable cfg : Config.

(** What a reset request does once its select has answered with one row. *)
Lemma reset_selected (env : Env) (req : Request) (w : World) (r : Reset.t) :
  select_error env = false ->
  matching_resets (normalize (or_empty (r_email req))) (template (r_token req)) w = [r] ->
  reset bcrypt_hash env req w =
  if (Reset.expires_at r <? now env)%Z
  then ({| status := 400; body := Message "Token đã hết hạn" |}, w)
  else if update_error env
  then ({| status := 500; body := Message "Lỗi server" |},
        with_console (console w ++ [("[reset]", StoreFailure)]) w)
  else
    let w1 :=
      with_users
        (update_where (fun u => User.email u =? normalize (or_empty (r_email req)))
           (User.set_pass_hash (bcrypt_hash (or_empty (r_newPassword req)) 8 (salt env)))
           (users w)) w in
    ({| status := 200; body := Message "Đã đặt lại mật khẩu" |},
     if delete_error env then w1
     else with_resets (filter (fun x => negb (Reset.id x =? Reset.id r)%nat) (resets w1)) w1).
Proof.
  intros Hsel Hm. unfold matching_resets in Hm. unfold_handler.
  rewrite Hsel, Hm. cbn.
  destruct (Reset.expires_at r <? now env)%Z; [reflexivity|].
  destruct (update_error env); cbn; [reflexivity|].
  destruct (delete_error env); reflexivity.
Qed.

(** A reset request whose select finds no row is refused and changes nothing. *)
Lemma reset_no_row (env : Env) (req : Request) (w : World) :
  select_error env = false ->
  matching_resets (normalize (or_empty (r_email req))) (template (r_token req)) w = [] ->
  reset bcrypt_hash env req w =
  ({| status := 400; body := Message "Token không hợp lệ" |}, w).
Proof.
  intros Hsel Hm. unfold matching_resets in Hm. unfold_handler.
  now rewrite Hsel, Hm.
Qed.

(** What a reset request leaves behind when its row is still in time and the
    update went through. *)
Lemma reset_accepted (env : Env) (req : Request) (w : World) (r : Reset.t) :
  select_error env = false -> update_error env = false ->
  matching_resets (normalize (or_empty (r_email req))) (template (r_token req)) w = [r] ->
  (now env <= Reset.expires_at r)%Z ->
  fst (reset bcrypt_hash env req w) =
    {| status := 200; body := Message "Đã đặt lại mật khẩu" |} /\
  users (snd (reset bcrypt_hash env req w)) =
    update_where (fun u => User.email u =? normalize (or_empty (r_email req)))
      (User.set_pass_hash (bcrypt_hash (or_empty (r_newPassword req)) 8 (salt env)))
      (users w) /\
  resets (snd (reset bcrypt_hash env req w)) =
    if delete_error env then resets w
    else filter (fun x => negb (Reset.id x =? Reset.id r)%nat) (resets w).
Proof.
  intros Hsel Hupd Hm Hle.
  rewrite (reset_selected env req w r Hsel Hm).
  apply Z.ltb_ge in Hle. rewrite Hle, Hupd. cbv zeta.
  destruct (delete_error env); repeat split.
Qed.

(** C1, as amended.  A reset token whose row was deleted is not accepted
    again.  When a reset request selects one row that has not expired and the
    store carries out its calls, the delete included, the request is answered
    200 ("Đã đặt lại mật khẩu") and the row is gone from [resets]; any later
    reset request with the same token and the same email (up to case and
    surrounding white space; whatever its new password, whenever it arrives)
    is answered 400 "Token không hợp lệ" and changes nothing.  (The handler
    does not look at the outcome of the delete: when it fails the answer is
    200 all the same and the token stays usable.) *)
Theorem reset_token_accepted_once
  (env1 env2 : Env) (req1 req2 : Request) (w : World) (r : Reset.t) :
  select_error env1 = false -> update_error env1 = false ->
  delete_error env1 = false -> select_error env2 = false ->
  matching_resets (normalize (or_empty (r_email req1))) (template (r_token req1)) w = [r] ->
  (now env1 <= Reset.expires_at r)%Z ->
  normalize (or_empty (r_email req2)) = normalize (or_empty (r_email req1)) ->
  template (r_token req2) = template (r_token req1) ->
  let (resp1, w1) := reset bcrypt_hash env1 req1 w in
  let (resp2, w2) := reset bcrypt_hash env2 req2 w1 in
  In r (resets w) /\
  resp1 = {| status := 200; body := Message "Đã đặt lại mật khẩu" |} /\
  ~ In r (resets w1) /\
  resp2 = {| status := 400; body := Message "Token không hợp lệ" |} /\
  w2 = w1.
Proof.
  intros Hs1 Hu1 Hd1 Hs2 Hm Hexp He Ht.
  rewrite (reset_selected env1 req1 w r Hs1 Hm).
  apply Z.ltb_ge in Hexp. rewrite Hexp, Hu1, Hd1. cbv beta iota zeta.
  rewrite reset_no_row; [| assumption |].
  - assert (Hin : In r (matching_resets (normalize (or_empty (r_email req1)))
                           (template (r_token req1)) w)) by (rewrite Hm; now left).
    apply matching_resets_In in Hin as [Hin _].
    repeat split; trivial.
    simpl. rewrite filter_In, Nat.eqb_refl. simpl. intros [_ H]; discriminate.
  - rewrite He, Ht.
    apply (matching_resets_delete _ _ (with_users _ w) r). exact Hm.
Qed.

(** What a login request does once its select has answered. *)
Lemma login_selected (env : Env) (req : Request) (w : World) (u : User.t) :
  select_error env = false ->
  eq_text User.email (normalize (or_empty (r_email req))) (users w) = [u] ->
  login bcrypt_compare jwt_sign cfg env req w =
  (if negb (User.approved u)
   then {| status := 403; body := Message "Tài khoản chưa được duyệt" |}
   else if negb (bcrypt_compare (or_empty (r_password req)) (User.pass_hash u))
   then {| status := 400; body := Message "Email hoặc mật khẩu sai" |}
   else {| status := 200;
           body := Session
                     (jwt_sign {| uid := User.id u; c_email := User.email u;
                                  c_name := User.name u |} (JWT_SECRET cfg) (now env))
                     (User.id u) (User.email u) (User.name u) |},
   w).
Proof.
  intros Hsel Hq. unfold_handler. rewrite Hsel, Hq. cbn.
  destruct (User.approved u); cbn; [|reflexivity].
  destruct (bcrypt_compare _ _); reflexivity.
Qed.

Lemma login_no_row (env : Env) (req : Request) (w : World) :
  select_error env = false ->
  eq_text User.email (normalize (or_empty (r_email req))) (users w) = [] ->
  login bcrypt_compare jwt_sign cfg env req w =
  ({| status := 400; body := Message "Email hoặc mật khẩu sai" |}, w).
Proof. intros Hsel Hq. unfold_handler. now rewrite Hsel, Hq. Qed.

(** An account that awaits approval is told so, whatever the password. *)
Lemma login_pending_account (env : Env) (req : Request) (w : World) (u : User.t) :
  select_error env = false ->
  eq_text User.email (normalize (or_empty (r_email req))) (users w) = [u] ->
  User.approved u = false ->
  login bcrypt_compare jwt_sign cfg env req w =
  ({| status := 403; body := Message "Tài khoản chưa được duyệt" |}, w).
Proof.
  intros Hsel Hq Happ. rewrite (login_selected env req w u Hsel Hq). now rewrite Happ.
Qed.

(** C2, as amended.  A login with an email no user holds and a login with the
    email of an approved user whose stored hash does not verify the password
    are answered alike: status 400, message "Email hoặc mật khẩu sai", nothing
    changed.  (An account that is not approved yet is answered 403 before the
    password is looked at.) *)
Theorem login_same_answer_for_approved_user
  (env1 env2 : Env) (req1 req2 : Request) (w : World) (u : User.t) :
  select_error env1 = false -> select_error env2 = false ->
  NoDup (map User.email (users w)) ->
  ~ In (normalize (or_empty (r_email req1))) (map User.email (users w)) ->
  In u (users w) ->
  User.email u = normalize (or_empty (r_email req2)) ->
  User.approved u = true ->
  bcrypt_compare (or_empty (r_password req2)) (User.pass_hash u) = false ->
  login bcrypt_compare jwt_sign cfg env1 req1 w =
    ({| status := 400; body := Message "Email hoặc mật khẩu sai" |}, w) /\
  login bcrypt_compare jwt_sign cfg env2 req2 w =
    ({| status := 400; body := Message "Email hoặc mật khẩu sai" |}, w).
Proof.
  intros Hs1 Hs2 ND Hnone Hin Hmail Happ Hcmp. split.
  - apply login_no_row; [assumption|]. now apply eq_text_none.
  - rewrite (login_selected env2 req2 w u Hs2).
    + now rewrite Happ, Hcmp.
    + rewrite <- Hmail. now apply eq_text_unique.
Qed.


(** The row a forgot request inserts expires thirty minutes after the request:
    the request is answered with the generic message unless the mail call
    fails, and either way the row is in the table. *)
Lemma forgot_issues_reset (env : Env) (req : Request) (w : World) (u : User.t) :
  select_error env = false -> insert_error env = false ->
  eq_text User.email (normalize (or_empty (r_email req))) (users w) = [u] ->
  resets (snd (forgot cfg env req w)) =
  (resets w ++ [Reset.mk (next_id w) (normalize (or_empty (r_email req)))
                  (random_hex env) (now env + 1800000)%Z (now env)])%list.
Proof.
  intros Hsel Hins Hq. unfold_handler. rewrite Hsel, Hq. cbn. rewrite Hins. cbn.
  unfold sendMail, transport_sendMail.
  destruct (getTransporter cfg); [destruct (mail_error env)|]; reflexivity.
Qed.

(** A token drawn for the first time selects the row that forgot inserted:
    the request that presents it within thirty minutes is the one the
    contract of reset speaks about. *)
Lemma forgot_token_selects_its_row (env : Env) (req : Request) (w : World) (u : User.t) :
  select_error env = false -> insert_error env = false ->
  eq_text User.email (normalize (or_empty (r_email req))) (users w) = [u] ->
  ~ In (random_hex env) (map Reset.token (resets w)) ->
  matching_resets (normalize (or_empty (r_email req))) (random_hex env)
    (snd (forgot cfg env req w)) =
  [Reset.mk (next_id w) (normalize (or_empty (r_email req)))
     (random_hex env) (now env + 1800000)%Z (now env)].
Proof.
  intros Hsel Hins Hq Hfresh. unfold matching_resets.
  rewrite (forgot_issues_reset env req w u Hsel Hins Hq).
  unfold eq_text. rewrite !filter_app. simpl. rewrite !String.eqb_refl. simpl.
  rewrite String.eqb_refl.
  replace (filter _ (filter _ (resets w))) with (@nil Reset.t); [reflexivity|].
  symmetry. apply (eq_text_none Reset.token).
  intros Hin. apply Hfresh. apply in_map_iff in Hin as (x & Hx & Hin).
  rewrite <- Hx. apply in_map. now apply filter_In in Hin.
Qed.

(** A register request never touches the rows of [users] when the normal form
    of its email is already there: the select answers with a row or with an
    error, and both paths leave before the insert. *)
Lemma register_existing_keeps_users (env : Env) (req : Request) (w : World) (e : string) :
  r_email req = Some e ->
  In (normalize e) (map User.email (users w)) ->
  users (snd (register bcrypt_hash cfg env req w)) = users w.
Proof.
  intros He Hin. unfold_handler. rewrite He. cbn [template].
  destruct (negb (truthy (r_name req)) || negb (truthy (Some e))
            || negb (truthy (r_password req))); [reflexivity|].
  destruct (select_error env); [reflexivity|].
  destruct (eq_text User.email (normalize e) (users w)) as [|a [|b l]] eqn:E;
    try reflexivity.
  exfalso. apply in_map_iff in Hin as (x & Hx & Hin).
  assert (H : In x (eq_text User.email (normalize e) (users w)))
    by now apply eq_text_In.
  now rewrite E in H.
Qed.

(** C4. Registering an email that is already held is refused.  When some user
    holds the trimmed, lower-cased form of the submitted email, the rows of
    [users] are the same after the request, whatever else the request says
    and whatever the store answers; when the select is carried out the status
    is 400; and for a request with its three fields present the answer is
    400 "Email đã tồn tại" with nothing changed at all. *)
Theorem register_existing_email_refused
  (env : Env) (req : Request) (w : World) (e : string) :
  r_email req = Some e ->
  In (normalize e) (map User.email (users w)) ->
  users (snd (register bcrypt_hash cfg env req w)) = users w /\
  (NoDup (map User.email (users w)) -> select_error env = false ->
   status (fst (register bcrypt_hash cfg env req w)) = 400) /\
  (NoDup (map User.email (users w)) -> select_error env = false ->
   truthy (r_name req) = true -> truthy (r_email req) = true ->
   truthy (r_password req) = true ->
   register bcrypt_hash cfg env req w =
     ({| status := 400; body := Message "Email đã tồn tại" |}, w)).
Proof.
  intros He Hin. split; [now apply register_existing_keeps_users with e|].
  apply in_map_iff in Hin as (x & Hx & Hin).
  assert (Hq : NoDup (map User.email (users w)) ->
               eq_text User.email (normalize e) (users w) = [x])
    by (intros ND; rewrite <- Hx; now apply eq_text_unique).
  split.
  - intros ND Hsel. unfold_handler. rewrite He. cbn [template].
    destruct (negb (truthy (r_name req)) || negb (truthy (Some e))
              || negb (truthy (r_password req))); [reflexivity|].
    now rewrite Hsel, (Hq ND).
  - intros ND Hsel Hn Hm Hp. unfold_handler. rewrite He in *. cbn [template].
    rewrite Hn, Hm, Hp. cbn. now rewrite Hsel, (Hq ND).
Qed.

(** What a change-password request does once the middleware has let it pass
    and its select has answered with one row. *)
Lemma change_password_selected
  (env : Env) (req : Request) (w : World) (u : User.t) (t : string) (user : Claims) :
  match_bearer (or_empty (authorization req)) = Some t ->
  jwt_verify t (JWT_SECRET cfg) (now env) = Some user ->
  select_error env = false ->
  eq_id User.id (uid user) (users w) = [u] ->
  truthy (r_newPassword req) = true ->
  change_password bcrypt_hash bcrypt_compare jwt_verify cfg env req w =
  if negb (bcrypt_compare (or_empty (r_oldPassword req)) (User.pass_hash u))
  then ({| status := 400; body := Message "Mật khẩu hiện tại không đúng" |}, w)
  else if update_error env
  then ({| status := 500; body := Message "Lỗi server" |},
        with_console (console w ++ [("[change-password]", StoreFailure)]) w)
  else ({| status := 200; body := Message "Đã đổi mật khẩu" |},
        with_users
          (update_where (fun x => (User.id x =? uid user)%nat)
             (User.set_pass_hash
                (bcrypt_hash (template (r_newPassword req)) 8 (salt env)))
             (users w)) w).
Proof.
  intros Hb Hv Hsel Hq Hnew. unfold_handler.
  rewrite Hb, Hv, Hnew. cbn. rewrite Hsel, Hq. cbn.
  destruct (bcrypt_compare _ _); cbn; [|reflexivity].
  destruct (update_error env); reflexivity.
Qed.

(** Rewriting password hashes moves no row and changes no key or email. *)
Lemma update_pass_hash_emails (p : User.t -> bool) (h : string) (us : list User.t) :
  map User.email (update_where p (User.set_pass_hash h) us) = map User.email us.
Proof.
  unfold update_where. rewrite map_map. apply map_ext.
  intros x. now destruct (p x).
Qed.

Lemma update_where_hit {Row} (p : Row -> bool) (f : Row -> Row) (rows : list Row) (x : Row) :
  In x rows -> p x = true -> In (f x) (update_where p f rows).
Proof.
  intros Hin Hp. apply update_where_In. exists x. now rewrite Hp.
Qed.

(** After a successful change the row of the user is selected by its email
    and carries the new hash. *)
Lemma changed_user_selected (w : World) (u : User.t) (h : string) :
  NoDup (map User.email (users w)) -> In u (users w) ->
  eq_text User.email (User.email u)
    (update_where (fun x => (User.id x =? User.id u)%nat) (User.set_pass_hash h) (users w))
  = [User.set_pass_hash h u].
Proof.
  intros ND Hin.
  change (User.email u) with (User.email (User.set_pass_hash h u)).
  apply eq_text_unique.
  - now rewrite update_pass_hash_emails.
  - apply update_where_hit; [assumption | apply Nat.eqb_refl].
Qed.

(** A change-password request without a new password is refused before the
    store is asked. *)
Lemma change_password_without_new
  (env : Env) (req : Request) (w : World) (t : string) (user : Claims) :
  match_bearer (or_empty (authorization req)) = Some t ->
  jwt_verify t (JWT_SECRET cfg) (now env) = Some user ->
  truthy (r_newPassword req) = false ->
  change_password bcrypt_hash bcrypt_compare jwt_verify cfg env req w =
  ({| status := 400; body := Message "Thiếu mật khẩu mới" |}, w).
Proof. intros Hb Hv Hnew. unfold_handler. now rewrite Hb, Hv, Hnew. Qed.

(** C5, as amended.  Let the hasher verify what it hashed, and let a request
    carry a valid bearer token of user [u].  With an old password the stored
    hash does not verify, the answer is 400 and nothing changes.  With the
    right old password and a new password (and the update carried out) the
    answer is 200 and the row of [u] gets the hash of the new password in
    [pass_hash], every other column and row as it was; that hash verifies the
    new password.  A later login for [u] is then answered by the new hash
    alone: 403 if [u] is not approved, else 200 when the hash verifies the
    password sent and 400 when it does not.  So the new password logs in, and
    the old password is refused exactly when the new hash does not verify it
    -- which it still does when the new password is the old one. *)
Theorem change_password_contract
  (env : Env) (req : Request) (w : World) (u : User.t) (t : string) (user : Claims) :
  (forall p c s, bcrypt_compare p (bcrypt_hash p c s) = true) ->
  match_bearer (or_empty (authorization req)) = Some t ->
  jwt_verify t (JWT_SECRET cfg) (now env) = Some user ->
  uid user = User.id u -> In u (users w) ->
  NoDup (map User.id (users w)) -> NoDup (map User.email (users w)) ->
  select_error env = false ->
  let answer := change_password bcrypt_hash bcrypt_compare jwt_verify cfg env req w in
  let new_hash := bcrypt_hash (template (r_newPassword req)) 8 (salt env) in
  (bcrypt_compare (or_empty (r_oldPassword req)) (User.pass_hash u) = false ->
   status (fst answer) = 400 /\ snd answer = w) /\
  (bcrypt_compare (or_empty (r_oldPassword req)) (User.pass_hash u) = true ->
   truthy (r_newPassword req) = true ->
   update_error env = false ->
   fst answer = {| status := 200; body := Message "Đã đổi mật khẩu" |} /\
   users (snd answer) =
     map (fun x => if (User.id x =? User.id u)%nat
                   then User.mk (User.id x) (User.name x) (User.email x) new_hash
                          (User.approved x) (User.created_at x)
                   else x) (users w) /\
   (exists u', In u' (users (snd answer)) /\ User.id u' = User.id u /\
               User.pass_hash u' = new_hash) /\
   bcrypt_compare (template (r_newPassword req)) new_hash = true /\
   (forall (env' : Env) (again : Request),
      select_error env' = false ->
      normalize (or_empty (r_email again)) = User.email u ->
      status (fst (login bcrypt_compare jwt_sign cfg env' again (snd answer))) =
        (if User.approved u
         then if bcrypt_compare (or_empty (r_password again)) new_hash
              then 200 else 400
         else 403) /\
      (User.approved u = true -> r_password again = r_newPassword req ->
       status (fst (login bcrypt_compare jwt_sign cfg env' again (snd answer))) = 200) /\
      (User.approved u = true -> r_password again = r_oldPassword req ->
       bcrypt_compare (or_empty (r_oldPassword req)) new_hash = false ->
       fst (login bcrypt_compare jwt_sign cfg env' again (snd answer)) =
         {| status := 400; body := Message "Email hoặc mật khẩu sai" |}))).
Proof.
  intros Hsound Hb Hv Huid Hin NDid NDmail Hsel answer new_hash.
  assert (Hq : eq_id User.id (uid user) (users w) = [u])
    by (rewrite Huid; now apply eq_id_unique).
  subst answer. split.
  - intros Hold. destruct (truthy (r_newPassword req)) eqn:Hnew.
    + rewrite (change_password_selected env req w u t user Hb Hv Hsel Hq Hnew).
      now rewrite Hold.
    + now rewrite (change_password_without_new env req w t user Hb Hv Hnew).
  - intros Hold Hnew Hupd.
    rewrite (change_password_selected env req w u t user Hb Hv Hsel Hq Hnew).
    rewrite Hold, Hupd. cbn [negb fst snd users with_users].
    assert (Hnew_eq : or_empty (r_newPassword req) = template (r_newPassword req)).
    { destruct (r_newPassword req); [reflexivity | discriminate Hnew]. }
    split; [reflexivity|]. split.
    { rewrite Huid. reflexivity. }
    split.
    { exists (User.mk (User.id u) (User.name u) (User.email u) new_hash
                (User.approved u) (User.created_at u)).
      split; [|split; reflexivity].
      apply update_where_In. exists u. split; [assumption|].
      now rewrite Huid, Nat.eqb_refl. }
    split; [apply Hsound|].
    intros env' again Hsel' Hmail.
    set (w1 := with_users _ w).
    assert (Hrow : eq_text User.email (normalize (or_empty (r_email again))) (users w1)
                   = [User.set_pass_hash new_hash u]).
    { subst w1. cbn [users with_users]. rewrite Hmail, Huid.
      now apply changed_user_selected. }
    rewrite (login_selected env' again w1 (User.set_pass_hash new_hash u) Hsel' Hrow).
    cbn [User.approved User.set_pass_hash User.pass_hash fst].
    split; [|split].
    + destruct (User.approved u),
        (bcrypt_compare (or_empty (r_password again)) new_hash); reflexivity.
    + intros Happ Hpw. rewrite Happ, Hpw, Hnew_eq. subst new_hash.
      now rewrite Hsound.
    + intros Happ Hpw Hrej. now rewrite Happ, Hpw, Hrej.
Qed.

(** ** Mail failures *)

(** [sendMail] lets a failing send through: with a transport configured and
    the send rejected, the call throws. *)
Lemma sendMail_throws (env : Env) (tp : Transporter) (to subject text : string) (w : World) :
  getTransporter cfg = Some tp -> mail_error env = true ->
  sendMail cfg env to subject text w = (Thrown MailFailure, w).
Proof.
  intros Htp Hfail. unfold sendMail, transport_sendMail. now rewrite Htp, Hfail.
Qed.

(** The guarded mailer never throws. *)
Lemma sendMail_guarded_total (env : Env) (to subject text : string) (w : World) :
  exists w', sendMail_guarded cfg env to subject text w = (Next tt, w').
Proof.
  unfold sendMail_guarded, transport_sendMail.
  destruct (getTransporter_other cfg); [destruct (mail_error env)|]; eauto.
Qed.

(** A register request whose notification fails is answered 500 although the
    user row has been inserted. *)
Lemma register_mail_failure
  (env : Env) (req : Request) (w : World) (tp : Transporter) :
  getTransporter cfg = Some tp -> ADMIN_EMAIL cfg <> "" -> mail_error env = true ->
  select_error env = false -> insert_error env = false ->
  truthy (r_name req) = true -> truthy (r_email req) = true ->
  truthy (r_password req) = true ->
  ~ In (normalize (template (r_email req))) (map User.email (users w)) ->
  fst (register bcrypt_hash cfg env req w) =
    {| status := 500; body := Message "Lỗi server" |} /\
  users (snd (register bcrypt_hash cfg env req w)) =
    (users w ++ [User.mk (next_id w) (template (r_name req))
                   (normalize (template (r_email req)))
                   (bcrypt_hash (template (r_password req)) 8 (salt env))
                   false (now env)])%list /\
  console (snd (register bcrypt_hash cfg env req w)) =
    (console w ++ [("[register]", MailFailure)])%list.
Proof.
  intros Htp Hadmin Hfail Hsel Hins Hn He Hp Hnone.
  apply String.eqb_neq in Hadmin.
  pose proof (eq_text_none User.email _ _ Hnone) as Hq.
  assert (Hex : existsb (fun u => User.email u =? normalize (template (r_email req)))
                  (users w) = false).
  { apply not_true_is_false. intros H. apply existsb_exists in H as (x & Hx & Hxe).
    apply String.eqb_eq in Hxe. apply Hnone. rewrite <- Hxe. now apply in_map. }
  unfold_handler. rewrite Hn, He, Hp. cbn. rewrite Hsel, Hq. cbn.
  rewrite Hins, Hex. cbn. rewrite Hadmin. cbn.
  rewrite (sendMail_throws env tp) by assumption. cbn. auto.
Qed.

(** A forgot request whose mail fails is answered 500 although the reset row
    has been inserted. *)
Lemma forgot_mail_failure
  (env : Env) (req : Request) (w : World) (tp : Transporter) (u : User.t) :
  getTransporter cfg = Some tp -> mail_error env = true ->
  select_error env = false -> insert_error env = false ->
  eq_text User.email (normalize (or_empty (r_email req))) (users w) = [u] ->
  fst (forgot cfg env req w) = {| status := 500; body := Message "Lỗi server" |} /\
  console (snd (forgot cfg env req w)) = (console w ++ [("[forgot]", MailFailure)])%list.
Proof.
  intros Htp Hfail Hsel Hins Hq.
  unfold_handler. rewrite Hsel, Hq. cbn. rewrite Hins. cbn.
  rewrite (sendMail_throws env tp) by assumption. cbn. auto.
Qed.

(** ** Approval and reset corner cases *)

Lemma with_users_same (w : World) : with_users (users w) w = w.
Proof. now destruct w. Qed.

(** C8. Approving an email nobody holds is answered like any other approval:
    with both fields present, the right admin code and the update carried
    out, the answer is 200 "Đã duyệt" and the world is what it was. *)
Theorem approve_unknown_email (env : Env) (req : Request) (w : World) :
  truthy (r_email req) = true -> truthy (r_code req) = true ->
  template (r_code req) = ADMIN_CODE cfg ->
  update_error env = false ->
  ~ In (normalize (template (r_email req))) (map User.email (users w)) ->
  approve cfg env req w = ({| status := 200; body := Message "Đã duyệt" |}, w).
Proof.
  intros He Hc Hcode Hupd Hnone.
  assert (Hadmin : (ADMIN_CODE cfg =? "") = false).
  { rewrite <- Hcode. destruct (r_code req) as [c|]; [|discriminate Hc].
    simpl in *. now destruct (c =? ""). }
  unfold_handler. rewrite He, Hc, Hcode, Hadmin, String.eqb_refl. cbn.
  rewrite Hupd. cbn. rewrite update_where_none.
  - now rewrite with_users_same.
  - intros r Hr. apply String.eqb_neq. intros E. apply Hnone.
    rewrite <- E. now apply in_map.
Qed.

(** C9. The reset handler does not ask for a new password: a request that
    selects a row still in time and leaves [newPassword] out, or sends the
    empty string, is answered 200, and afterwards every user row of that email
    has the hash of the empty string in [pass_hash] -- its other columns and
    all other rows are what they were. *)
Theorem reset_without_new_password
  (env : Env) (req : Request) (w : World) (r : Reset.t) :
  r_newPassword req = None \/ r_newPassword req = Some "" ->
  select_error env = false -> update_error env = false ->
  matching_resets (normalize (or_empty (r_email req))) (template (r_token req)) w = [r] ->
  (now env <= Reset.expires_at r)%Z ->
  fst (reset bcrypt_hash env req w) =
    {| status := 200; body := Message "Đã đặt lại mật khẩu" |} /\
  users (snd (reset bcrypt_hash env req w)) =
    map (fun u => if User.email u =? normalize (or_empty (r_email req))
                  then User.mk (User.id u) (User.name u) (User.email u)
                         (bcrypt_hash "" 8 (salt env))
                         (User.approved u) (User.created_at u)
                  else u) (users w) /\
  (forall u, In u (users w) -> User.email u = normalize (or_empty (r_email req)) ->
     exists u', In u' (users (snd (reset bcrypt_hash env req w))) /\
                User.id u' = User.id u /\
                User.pass_hash u' = bcrypt_hash "" 8 (salt env)).
Proof.
  intros Hnew Hsel Hupd Hm Hle.
  destruct (reset_accepted env req w r Hsel Hupd Hm Hle) as (H1 & H2 & _).
  assert (E : or_empty (r_newPassword req) = "")
    by (destruct Hnew as [-> | ->]; reflexivity).
  rewrite E in H2. split; [exact H1|]. split; [rewrite H2; reflexivity|].
  intros u Hin Hmail. rewrite H2.
  exists (User.mk (User.id u) (User.name u) (User.email u)
            (bcrypt_hash "" 8 (salt env)) (User.approved u) (User.created_at u)).
  split; [|split; reflexivity].
  apply update_where_In. exists u. split; [assumption|].
  apply String.eqb_eq in Hmail. now rewrite Hmail.
Qed.

(** C10. The answer of a reset does not depend on the delete: once the select
    has found a row still in time and the update went through, the answer is
    200 whether the delete was carried out or failed, and when it failed the
    table [resets] is what it was, the row included, so that the same request
    selects it again. *)
Theorem reset_ignores_delete_outcome
  (env : Env) (req : Request) (w : World) (r : Reset.t) :
  select_error env = false -> update_error env = false ->
  matching_resets (normalize (or_empty (r_email req))) (template (r_token req)) w = [r] ->
  (now env <= Reset.expires_at r)%Z ->
  fst (reset bcrypt_hash env req w) =
    {| status := 200; body := Message "Đã đặt lại mật khẩu" |} /\
  (delete_error env = true ->
   resets (snd (reset bcrypt_hash env req w)) = resets w /\
   In r (resets (snd (reset bcrypt_hash env req w))) /\
   matching_resets (normalize (or_empty (r_email req))) (template (r_token req))
     (snd (reset bcrypt_hash env req w)) = [r]).
Proof.
  intros Hsel Hupd Hm Hle.
  destruct (reset_accepted env req w r Hsel Hupd Hm Hle) as (H1 & _ & H3).
  split; [exact H1|].
  intros Hdel. rewrite Hdel in H3.
  assert (Hin : In r (matching_resets (normalize (or_empty (r_email req)))
                        (template (r_token req)) w)) by (rewrite Hm; now left).
  apply matching_resets_In in Hin as [Hin _].
  split; [exact H3|]. split; [now rewrite H3|].
  unfold matching_resets in *. now rewrite H3.
Qed.

(** ** Email normal form *)

Lemma normalize_nonempty (e : string) : normalize e <> "" -> e <> "".
Proof. intros H ->. now apply H. Qed.

Lemma truthy_nonempty (e : string) : e <> "" -> truthy (Some e) = true.
Proof. intros H. simpl. now apply String.eqb_neq in H as ->. Qed.

(** A successful registration stores the normal form of the email. *)
Lemma register_stores_normal_form (env : Env) (req : Request) (w : World) :
  select_error env = false -> insert_error env = false ->
  truthy (r_name req) = true -> truthy (r_email req) = true ->
  truthy (r_password req) = true ->
  ~ In (normalize (template (r_email req))) (map User.email (users w)) ->
  users (snd (register bcrypt_hash cfg env req w)) =
    (users w ++ [User.mk (next_id w) (template (r_name req))
                   (normalize (template (r_email req)))
                   (bcrypt_hash (template (r_password req)) 8 (salt env))
                   false (now env)])%list.
Proof.
  intros Hsel Hins Hn He Hp Hnone.
  pose proof (eq_text_none User.email _ _ Hnone) as Hq.
  assert (Hex : existsb (fun u => User.email u =? normalize (template (r_email req)))
                  (users w) = false).
  { apply not_true_is_false. intros H. apply existsb_exists in H as (x & Hx & Hxe).
    apply String.eqb_eq in Hxe. apply Hnone. rewrite <- Hxe. now apply in_map. }
  unfold_handler. rewrite Hn, He, Hp. cbn. rewrite Hsel, Hq. cbn.
  rewrite Hins, Hex. cbn.
  unfold sendMail, transport_sendMail, ret.
  destruct (negb (ADMIN_EMAIL cfg =? "")); [|reflexivity].
  destruct (getTransporter cfg); [destruct (mail_error env)|]; reflexivity.
Qed.

(** C7, as amended.  Login answers a request with email [e] exactly as it
    answers the request with the trimmed, lower-cased [e], for every string
    [e].  Approve and register do so whenever that normal form is not empty
    (both check that the email is present before they normalise it).  A
    registration that goes through stores the normal form: registering
    "A@X.com" stores "a@x.com", and registering "a@x.com" afterwards is
    refused with 400 "Email đã tồn tại". *)
Theorem email_normal_form (env : Env) (req : Request) (w : World) (e : string) :
  login bcrypt_compare jwt_sign cfg env (with_email (Some e) req) w =
  login bcrypt_compare jwt_sign cfg env
    (with_email (Some (trim (toLowerCase e))) req) w /\
  (normalize e <> "" ->
   approve cfg env (with_email (Some e) req) w =
   approve cfg env (with_email (Some (trim (toLowerCase e))) req) w /\
   register bcrypt_hash cfg env (with_email (Some e) req) w =
   register bcrypt_hash cfg env (with_email (Some (trim (toLowerCase e))) req) w) /\
  (e <> "" -> truthy (r_name req) = true -> truthy (r_password req) = true ->
   select_error env = false -> insert_error env = false ->
   ~ In (normalize e) (map User.email (users w)) ->
   exists u, users (snd (register bcrypt_hash cfg env (with_email (Some e) req) w))
             = (users w ++ [u])%list /\ User.email u = normalize e) /\
  (forall t1 t2 : Z,
     let (_, w1) :=
       register bcrypt_hash cfg (calm t1) (register_request "A" "A@X.com" "p1")
         empty_world in
     map User.email (users w1) = ["a@x.com"] /\
     fst (register bcrypt_hash cfg (calm t2) (register_request "A" "a@x.com" "p1") w1) =
       {| status := 400; body := Message "Email đã tồn tại" |}).
Proof.
  split; [|split; [|split]].
  - unfold login. cbn [with_email r_email r_password or_empty].
    now rewrite JsFacts.normalize_of_normal_form.
  - intros Hne.
    pose proof (truthy_nonempty e (normalize_nonempty e Hne)) as T1.
    assert (T2 : truthy (Some (trim (toLowerCase e))) = true).
    { apply truthy_nonempty. now rewrite <- JsFacts.normalize_trim_lower. }
    split.
    + unfold approve. cbn [with_email r_email r_code template].
      now rewrite T1, T2, JsFacts.normalize_of_normal_form.
    + unfold register. cbn [with_email r_email r_name r_password template].
      now rewrite T1, T2, JsFacts.normalize_of_normal_form.
  - intros Hne Hn Hp Hsel Hins Hnone.
    eexists. split.
    + apply register_stores_normal_form; cbn [with_email r_email r_name r_password template];
        auto using truthy_nonempty.
    + reflexivity.
  - intros t1 t2. unfold_handler. cbn.
    unfold sendMail, transport_sendMail, ret. cbn.
    destruct (negb (ADMIN_EMAIL cfg =? "")); [destruct (getTransporter cfg)|];
      cbn; split; reflexivity.
Qed.

End Contract.

(** ** The constraints of the store are kept

    Every handler takes a world that meets the store's constraints to one
    that does, whatever the request and whatever fails on the way: the
    uniqueness hypotheses of the contract hold in every world the service
    reaches from an empty store. *)

Section Invariant.

Variable P : World -> Prop.

Lemma preserves_ret {A} (a : A) : preserves P (ret a).
Proof. now intros w. Qed.

Lemma preserves_send {A} (st : nat) (b : Body) : preserves P (@send A st b).
Proof. now intros w. Qed.

Lemma preserves_throw {A} (e : Error) : preserves P (@throw A e).
Proof. now intros w. Qed.

Lemma preserves_query {A} (f : World -> Reply A) : preserves P (query f).
Proof. now intros w. Qed.

Lemma preserves_throw_if {A} (r : Reply A) : preserves P (throw_if r).
Proof. unfold throw_if. destruct (error r); [apply preserves_throw | apply preserves_ret]. Qed.

Lemma preserves_call {A} (f : World -> Reply A * World) :
  (forall w, P w -> P (snd (f w))) -> preserves P (call f).
Proof. intros H w Hw. unfold call. specialize (H w Hw). now destruct (f w). Qed.

Lemma preserves_bind {A B} (m : Act A) (k : A -> Act B) :
  preserves P m -> (forall a, preserves P (k a)) -> preserves P (bind m k).
Proof.
  intros Hm Hk w Hw. unfold bind. specialize (Hm w Hw).
  destruct (m w) as [[a | r | e] w']; simpl in *; [now apply Hk | assumption..].
Qed.

Lemma preserves_try_catch (tag : string) (b : Act Response) :
  (forall l w, P w -> P (with_console l w)) ->
  preserves P b -> handler_preserves P (try_catch tag b).
Proof.
  intros Hc Hb w Hw. unfold try_catch. specialize (Hb w Hw).
  destruct (b w) as [[a | r | e] w']; simpl in *; auto.
Qed.

End Invariant.

Lemma store_ok_with_console (l : list (string * Error)) (w : World) :
  store_ok w -> store_ok (with_console l w).
Proof. intros []. now constructor. Qed.

Lemma store_ok_with_outbox (ms : list Mail) (w : World) :
  store_ok w -> store_ok (with_outbox ms w).
Proof. intros []. now constructor. Qed.

Lemma NoDup_snoc {A} (l : list A) (x : A) : NoDup l -> ~ In x l -> NoDup (l ++ [x]).
Proof.
  intros ND Hx. apply NoDup_app; [assumption | repeat constructor; intros [] |].
  intros y Hy [<- | []]. contradiction.
Qed.

Lemma store_ok_insert_user (env : Env) (name email pass_hash : string) (approved : bool)
  (w : World) :
  store_ok w -> store_ok (snd (insert_user env name email pass_hash approved w)).
Proof.
  intros [Hm Hu Hr Hui Hri]. unfold insert_user.
  destruct (insert_error env); [now constructor|].
  destruct (existsb _ _) eqn:Hex; [now constructor|].
  constructor; simpl.
  - rewrite map_app. apply NoDup_snoc; [assumption|]. simpl.
    intros Hin. apply in_map_iff in Hin as (x & Hx & Hin).
    assert (existsb (fun u => User.email u =? email) (users w) = true).
    { apply existsb_exists. exists x. split; [assumption | now apply String.eqb_eq]. }
    congruence.
  - rewrite map_app. apply NoDup_snoc; [assumption|]. simpl.
    intros Hin. apply in_map_iff in Hin as (x & Hx & Hin).
    apply Hui in Hin. lia.
  - assumption.
  - intros u Hin. apply in_app_or in Hin as [Hin | [<- | []]]; simpl.
    + apply Hui in Hin. lia.
    + lia.
  - intros r Hin. apply Hri in Hin. lia.
Qed.

Lemma store_ok_insert_reset (env : Env) (email token : string) (expires_at : Z) (w : World) :
  store_ok w -> store_ok (snd (insert_reset env email token expires_at w)).
Proof.
  intros [Hm Hu Hr Hui Hri]. unfold insert_reset.
  destruct (insert_error env); [now constructor|].
  constructor; simpl; try assumption.
  - rewrite map_app. apply NoDup_snoc; [assumption|]. simpl.
    intros Hin. apply in_map_iff in Hin as (x & Hx & Hin).
    apply Hri in Hin. lia.
  - intros u Hin. apply Hui in Hin. lia.
  - intros r Hin. apply in_app_or in Hin as [Hin | [<- | []]]; simpl.
    + apply Hri in Hin. lia.
    + lia.
Qed.

Lemma store_ok_delete_reset (env : Env) (id : nat) (w : World) :
  store_ok w -> store_ok (snd (delete_reset env id w)).
Proof.
  intros [Hm Hu Hr Hui Hri]. unfold delete_reset.
  destruct (delete_error env); [now constructor|].
  constructor; simpl; try assumption.
  - now apply NoDup_map_filter.
  - intros r Hin. apply filter_In in Hin as [Hin _]. now apply Hri.
Qed.

(** An update that rewrites neither keys nor emails. *)
Lemma store_ok_update_users (env : Env) (p : User.t -> bool) (f : User.t -> User.t)
  (w : World) :
  (forall u, User.id (f u) = User.id u) ->
  (forall u, User.email (f u) = User.email u) ->
  store_ok w -> store_ok (snd (update_users env p f w)).
Proof.
  intros Hid Hmail [Hm Hu Hr Hui Hri]. unfold update_users.
  destruct (update_error env); [now constructor|].
  assert (Em : map User.email (update_where p f (users w)) = map User.email (users w)).
  { unfold update_where. rewrite map_map. apply map_ext.
    intros x. destruct (p x); auto. }
  assert (Ei : map User.id (update_where p f (users w)) = map User.id (users w)).
  { unfold update_where. rewrite map_map. apply map_ext.
    intros x. destruct (p x); auto. }
  constructor; simpl; try assumption.
  - now rewrite Em.
  - now rewrite Ei.
  - intros u Hin. apply update_where_In in Hin as (x & Hx & ->).
    destruct (p x); [rewrite Hid|]; now apply Hui.
Qed.

Section HandlersKeepStore.

Variable bcrypt_hash : string -> nat -> string -> string.
Variable bcrypt_compare : string -> string -> bool.
Variable jwt_sign : Claims -> string -> Z -> string.
Variable jwt_verify : string -> string -> Z -> option Claims.
Variable cfg : Config.

Lemma preserves_sendMail (env : Env) (to subject text : string) :
  preserves store_ok (sendMail cfg env to subject text).
Proof.
  unfold sendMail, transport_sendMail. intros w Hw.
  destruct (getTransporter cfg); [destruct (mail_error env)|]; simpl;
    auto using store_ok_with_outbox.
Qed.

Ltac keep_step :=
  match goal with
  | |- preserves _ (bind _ _) => apply preserves_bind; [|intros]
  | |- preserves _ (json_message _ _) => apply preserves_send
  | |- preserves _ (send _ _) => apply preserves_send
  | |- preserves _ (ret _) => apply preserves_ret
  | |- preserves _ (query _) => apply preserves_query
  | |- preserves _ (throw_if _) => apply preserves_throw_if
  | |- preserves _ (sendMail _ _ _ _ _) => apply preserves_sendMail
  | |- preserves _ (call (insert_user _ _ _ _ _)) =>
      apply preserves_call; intros; now apply store_ok_insert_user
  | |- preserves _ (call (insert_reset _ _ _ _)) =>
      apply preserves_call; intros; now apply store_ok_insert_reset
  | |- preserves _ (call (delete_reset _ _)) =>
      apply preserves_call; intros; now apply store_ok_delete_reset
  | |- preserves _ (call (update_users _ _ _)) =>
      apply preserves_call; intros; now apply store_ok_update_users
  | |- preserves _ (if ?b then _ else _) => destruct b
  | |- preserves _ (match ?x with _ => _ end) => destruct x
  end.

Ltac keep :=
  apply preserves_try_catch; [intros; now apply store_ok_with_console|];
  cbv zeta; repeat keep_step.

Theorem handlers_keep_store (env : Env) (req : Request) :
  handler_preserves store_ok (register bcrypt_hash cfg env req) /\
  handler_preserves store_ok (approve cfg env req) /\
  handler_preserves store_ok (login bcrypt_compare jwt_sign cfg env req) /\
  handler_preserves store_ok (forgot cfg env req) /\
  handler_preserves store_ok (reset bcrypt_hash env req) /\
  handler_preserves store_ok
    (change_password bcrypt_hash bcrypt_compare jwt_verify cfg env req).
Proof.
  split; [|split; [|split; [|split; [|split]]]].
  - unfold register. keep.
  - unfold approve. keep.
  - unfold login. keep.
  - unfold forgot. keep.
  - unfold reset. keep.
  - unfold change_password, auth.
    destruct (match_bearer _); [|now intros w].
    destruct (jwt_verify _ _ _); [|now intros w].
    keep.
Qed.

Lemma store_ok_empty : store_ok empty_world.
Proof. constructor; simpl; try constructor; intros ? []. Qed.

End HandlersKeepStore.

(** ** The handlers on concrete requests

    The statements below run the handlers with the test doubles: a world with
    one user ("a@x.com", password "p1") and one reset row (token "t0k3n",
    expiring at 1800000). *)

Lemma reset_token_accepted_once_witness :
  let (resp1, w1) :=
    reset plain_hash (calm 1000) (reset_request " A@x.com" "t0k3n" (Some "p2"))
      (demo_world true) in
  let (resp2, w2) :=
    reset plain_hash (calm 2000) (reset_request "a@X.com" "t0k3n" (Some "p3")) w1 in
  In demo_reset (resets (demo_world true)) /\
  resp1 = {| status := 200; body := Message "Đã đặt lại mật khẩu" |} /\
  ~ In demo_reset (resets w1) /\
  resp2 = {| status := 400; body := Message "Token không hợp lệ" |} /\
  w2 = w1.
Proof.
  apply (reset_token_accepted_once plain_hash (calm 1000) (calm 2000)
           (reset_request " A@x.com" "t0k3n" (Some "p2"))
           (reset_request "a@X.com" "t0k3n" (Some "p3"))
           (demo_world true) demo_reset);
    try reflexivity.
  vm_compute. discriminate.
Defined.

(** C1, as stated, fails when the delete of the row is not carried out: the
    first request is answered 200 all the same, the row stays, and a second
    request with the same email and token is accepted again and sets another
    password. *)
Lemma reset_token_accepted_twice_when_delete_fails :
  matching_resets "a@x.com" "t0k3n" (demo_world true) = [demo_reset] /\
  (now (delete_down 1000) <= Reset.expires_at demo_reset)%Z /\
  fst (reset plain_hash (delete_down 1000)
         (reset_request "a@x.com" "t0k3n" (Some "p2")) (demo_world true)) =
    {| status := 200; body := Message "Đã đặt lại mật khẩu" |} /\
  fst (reset plain_hash (calm 2000) (reset_request "a@x.com" "t0k3n" (Some "p3"))
         (snd (reset plain_hash (delete_down 1000)
                 (reset_request "a@x.com" "t0k3n" (Some "p2")) (demo_world true)))) =
    {| status := 200; body := Message "Đã đặt lại mật khẩu" |} /\
  map User.pass_hash
    (users (snd (reset plain_hash (calm 2000)
                   (reset_request "a@x.com" "t0k3n" (Some "p3"))
                   (snd (reset plain_hash (delete_down 1000)
                           (reset_request "a@x.com" "t0k3n" (Some "p2"))
                           (demo_world true)))))) = ["p3"].
Proof.
  split; [reflexivity|]. split; [vm_compute; discriminate|]. repeat split.
Qed.

(** C2, as stated, fails on an account that awaits approval: the wrong
    password is answered 403 while an unknown email is answered 400. *)
Lemma login_pending_account_told_apart :
  ~ In (normalize "nobody@x.com") (map User.email (users (demo_world false))) /\
  In (demo_user false) (users (demo_world false)) /\
  User.email (demo_user false) = normalize "a@x.com" /\
  plain_compare "wrong" (User.pass_hash (demo_user false)) = false /\
  fst (login plain_compare demo_sign demo_cfg (calm 1000)
         (login_request "nobody@x.com" "wrong") (demo_world false)) =
    {| status := 400; body := Message "Email hoặc mật khẩu sai" |} /\
  fst (login plain_compare demo_sign demo_cfg (calm 1000)
         (login_request "a@x.com" "wrong") (demo_world false)) =
    {| status := 403; body := Message "Tài khoản chưa được duyệt" |}.
Proof.
  split; [|repeat split; try reflexivity; now left].
  vm_compute. intros [H | []]. discriminate H.
Qed.

Lemma login_same_answer_for_approved_user_witness :
  login plain_compare demo_sign demo_cfg (calm 1000)
    (login_request "nobody@x.com" "wrong") (demo_world true) =
    ({| status := 400; body := Message "Email hoặc mật khẩu sai" |}, demo_world true) /\
  login plain_compare demo_sign demo_cfg (calm 2000)
    (login_request "A@X.com" "wrong") (demo_world true) =
    ({| status := 400; body := Message "Email hoặc mật khẩu sai" |}, demo_world true).
Proof.
  apply (login_same_answer_for_approved_user plain_compare demo_sign demo_cfg
           (calm 1000) (calm 2000) (login_request "nobody@x.com" "wrong")
           (login_request "A@X.com" "wrong") (demo_world true) (demo_user true));
    try reflexivity.
  - repeat constructor. intros [].
  - vm_compute. intros [H | []]. discriminate H.
  - now left.
Defined.



Lemma register_existing_email_refused_witness :
  users (snd (register plain_hash demo_cfg (calm 1000)
                (register_request "B" " A@X.com " "p9") (demo_world true))) =
    users (demo_world true) /\
  (NoDup (map User.email (users (demo_world true))) ->
   select_error (calm 1000) = false ->
   status (fst (register plain_hash demo_cfg (calm 1000)
                  (register_request "B" " A@X.com " "p9") (demo_world true))) = 400) /\
  (NoDup (map User.email (users (demo_world true))) ->
   select_error (calm 1000) = false ->
   truthy (r_name (register_request "B" " A@X.com " "p9")) = true ->
   truthy (r_email (register_request "B" " A@X.com " "p9")) = true ->
   truthy (r_password (register_request "B" " A@X.com " "p9")) = true ->
   register plain_hash demo_cfg (calm 1000)
     (register_request "B" " A@X.com " "p9") (demo_world true) =
     ({| status := 400; body := Message "Email đã tồn tại" |}, demo_world true)).
Proof.
  apply (register_existing_email_refused plain_hash demo_cfg (calm 1000)
           (register_request "B" " A@X.com " "p9") (demo_world true) " A@X.com ").
  - reflexivity.
  - now left.
Defined.

(** C5, as stated, fails when the new password is the old one: the change is
    answered 200, the new hash verifies the old password, and a later login
    with the old password is answered 200. *)
Lemma change_to_same_password_keeps_old_valid :
  plain_compare "p1" (User.pass_hash (demo_user true)) = true /\
  fst (change_password plain_hash plain_compare demo_verify demo_cfg (calm 1000)
         (change_request "Bearer token-0" "p1" "p1") (demo_world true)) =
    {| status := 200; body := Message "Đã đổi mật khẩu" |} /\
  map (fun u => plain_compare "p1" (User.pass_hash u))
    (users (snd (change_password plain_hash plain_compare demo_verify demo_cfg
                   (calm 1000) (change_request "Bearer token-0" "p1" "p1")
                   (demo_world true)))) = [true] /\
  status (fst (login plain_compare demo_sign demo_cfg (calm 2000)
                 (login_request "a@x.com" "p1")
                 (snd (change_password plain_hash plain_compare demo_verify demo_cfg
                         (calm 1000) (change_request "Bearer token-0" "p1" "p1")
                         (demo_world true))))) = 200.
Proof. repeat split. Qed.

(** The test hasher verifies what it hashed. *)
Lemma plain_hash_sound (p : string) (c : nat) (s : string) :
  plain_compare p (plain_hash p c s) = true.
Proof. apply String.eqb_refl. Qed.

Lemma change_password_contract_witness :
  (status (fst (change_password plain_hash plain_compare demo_verify demo_cfg
                  (calm 1000) (change_request "Bearer token-0" "zz" "p2")
                  (demo_world true))) = 400 /\
   snd (change_password plain_hash plain_compare demo_verify demo_cfg
          (calm 1000) (change_request "Bearer token-0" "zz" "p2")
          (demo_world true)) = demo_world true) /\
  fst (change_password plain_hash plain_compare demo_verify demo_cfg (calm 1000)
         (change_request "Bearer token-0" "p1" "p2") (demo_world true)) =
    {| status := 200; body := Message "Đã đổi mật khẩu" |} /\
  users (snd (change_password plain_hash plain_compare demo_verify demo_cfg (calm 1000)
                (change_request "Bearer token-0" "p1" "p2") (demo_world true))) =
    [User.mk 0 "A" "a@x.com" "p2" true 0] /\
  status (fst (login plain_compare demo_sign demo_cfg (calm 2000)
                 (login_request " A@X.com" "p2")
                 (snd (change_password plain_hash plain_compare demo_verify demo_cfg
                         (calm 1000) (change_request "Bearer token-0" "p1" "p2")
                         (demo_world true))))) = 200 /\
  fst (login plain_compare demo_sign demo_cfg (calm 2000)
         (login_request "a@x.com" "p1")
         (snd (change_password plain_hash plain_compare demo_verify demo_cfg
                 (calm 1000) (change_request "Bearer token-0" "p1" "p2")
                 (demo_world true)))) =
    {| status := 400; body := Message "Email hoặc mật khẩu sai" |}.
Proof.
  assert (NDid : NoDup (map User.id (users (demo_world true))))
    by (repeat constructor; intros []).
  assert (NDmail : NoDup (map User.email (users (demo_world true))))
    by (repeat constructor; intros []).
  split.
  - apply (change_password_contract plain_hash plain_compare demo_sign demo_verify
             demo_cfg (calm 1000) (change_request "Bearer token-0" "zz" "p2")
             (demo_world true) (demo_user true) "token-0"
             {| uid := 0; c_email := "a@x.com"; c_name := "A" |}
             plain_hash_sound eq_refl eq_refl eq_refl
             (or_introl eq_refl) NDid NDmail eq_refl).
    reflexivity.
  - destruct (change_password_contract plain_hash plain_compare demo_sign demo_verify
                demo_cfg (calm 1000) (change_request "Bearer token-0" "p1" "p2")
                (demo_world true) (demo_user true) "token-0"
                {| uid := 0; c_email := "a@x.com"; c_name := "A" |}
                plain_hash_sound eq_refl eq_refl eq_refl
                (or_introl eq_refl) NDid NDmail eq_refl) as [_ H].
    destruct (H eq_refl eq_refl eq_refl) as (H1 & H2 & _ & _ & H5).
    split; [exact H1|]. split; [rewrite H2; reflexivity|]. split.
    + apply (H5 (calm 2000) (login_request " A@X.com" "p2") eq_refl eq_refl);
        reflexivity.
    + apply (H5 (calm 2000) (login_request "a@x.com" "p1") eq_refl eq_refl);
        reflexivity.
Defined.

(** C6 on the code: with the transport configured and the send rejected, the
    register request is answered 500 after the user row was inserted, and the
    forgot request is answered 500 after the reset row was inserted. *)
Theorem mail_failure_reaches_the_caller :
  register plain_hash demo_cfg (mail_down 1000) (register_request "B" "b@x.com" "p9")
    empty_world =
    ({| status := 500; body := Message "Lỗi server" |},
     {| users := [User.mk 0 "B" "b@x.com" "p9" false 1000]; resets := [];
        next_id := 1; outbox := []; console := [("[register]", MailFailure)] |}) /\
  fst (forgot demo_cfg (mail_down 1000) (forgot_request "a@x.com") (demo_world true)) =
    {| status := 500; body := Message "Lỗi server" |} /\
  length (resets (snd (forgot demo_cfg (mail_down 1000) (forgot_request "a@x.com")
                         (demo_world true)))) = 2.
Proof. repeat split. Qed.

(** C7, as stated, fails on an email made of white space only: approve and
    register take " " for a present email and work on its normal form "",
    but answer 400 to the normal form itself. *)
Lemma blank_email_differs_from_its_normal_form :
  trim (toLowerCase " ") = "" /\
  fst (approve demo_cfg (calm 1000) (approve_request " " "s3cret") (demo_world true)) =
    {| status := 200; body := Message "Đã duyệt" |} /\
  fst (approve demo_cfg (calm 1000) (approve_request "" "s3cret") (demo_world true)) =
    {| status := 400; body := Message "Thiếu email/code" |} /\
  status (fst (register plain_hash demo_cfg (calm 1000) (register_request "B" " " "p9")
                 (demo_world true))) = 200 /\
  status (fst (register plain_hash demo_cfg (calm 1000) (register_request "B" "" "p9")
                 (demo_world true))) = 400.
Proof. repeat split. Qed.

Lemma email_normal_form_witness :
  approve demo_cfg (calm 1000)
    (with_email (Some " A@X.com ") (approve_request "" "s3cret")) (demo_world false) =
  approve demo_cfg (calm 1000)
    (with_email (Some (trim (toLowerCase " A@X.com "))) (approve_request "" "s3cret"))
    (demo_world false) /\
  register plain_hash demo_cfg (calm 1000)
    (with_email (Some " A@X.com ") (approve_request "" "s3cret")) (demo_world false) =
  register plain_hash demo_cfg (calm 1000)
    (with_email (Some (trim (toLowerCase " A@X.com "))) (approve_request "" "s3cret"))
    (demo_world false).
Proof.
  apply (email_normal_form plain_hash plain_compare demo_sign demo_cfg (calm 1000)
           (approve_request "" "s3cret") (demo_world false) " A@X.com ").
  vm_compute. discriminate.
Defined.

Lemma approve_unknown_email_witness :
  approve demo_cfg (calm 1000) (approve_request "Nobody@x.com" "s3cret")
    (demo_world false) =
  ({| status := 200; body := Message "Đã duyệt" |}, demo_world false).
Proof.
  apply (approve_unknown_email demo_cfg (calm 1000)
           (approve_request "Nobody@x.com" "s3cret") (demo_world false));
    try reflexivity.
  vm_compute. intros [H | []]. discriminate H.
Defined.

Lemma reset_without_new_password_witness :
  fst (reset plain_hash (calm 1000) (reset_request "a@x.com" "t0k3n" None)
         (demo_world true)) =
    {| status := 200; body := Message "Đã đặt lại mật khẩu" |} /\
  users (snd (reset plain_hash (calm 1000) (reset_request "a@x.com" "t0k3n" None)
                (demo_world true))) =
    [User.mk 0 "A" "a@x.com" (plain_hash "" 8 "salt") true 0] /\
  map User.pass_hash (users (demo_world true)) = ["p1"] /\
  map User.pass_hash
    (users (snd (reset plain_hash (calm 1000) (reset_request "a@x.com" "t0k3n" None)
                   (demo_world true)))) = [""].
Proof.
  destruct (reset_without_new_password plain_hash (calm 1000)
              (reset_request "a@x.com" "t0k3n" None) (demo_world true) demo_reset)
    as (H1 & H2 & _); try reflexivity.
  - now left.
  - vm_compute. discriminate.
  - split; [exact H1|]. rewrite H2. repeat split.
Defined.

Lemma reset_ignores_delete_outcome_witness :
  fst (reset plain_hash (delete_down 1000) (reset_request "a@x.com" "t0k3n" (Some "p2"))
         (demo_world true)) =
    {| status := 200; body := Message "Đã đặt lại mật khẩu" |} /\
  (delete_error (delete_down 1000) = true ->
   resets (snd (reset plain_hash (delete_down 1000)
                  (reset_request "a@x.com" "t0k3n" (Some "p2")) (demo_world true))) =
     resets (demo_world true) /\
   In demo_reset
     (resets (snd (reset plain_hash (delete_down 1000)
                     (reset_request "a@x.com" "t0k3n" (Some "p2")) (demo_world true)))) /\
   matching_resets (normalize (or_empty (Some "a@x.com"))) (template (Some "t0k3n"))
     (snd (reset plain_hash (delete_down 1000)
             (reset_request "a@x.com" "t0k3n" (Some "p2")) (demo_world true))) =
     [demo_reset]).
Proof.
  apply (reset_ignores_delete_outcome plain_hash (delete_down 1000)
           (reset_request "a@x.com" "t0k3n" (Some "p2")) (demo_world true) demo_reset);
    try reflexivity.
  vm_compute. discriminate.
Defined.

(** ** What a request can do to the tables

    For each route, the rows of [users] and [resets] after the request, for
    every request, environment and world. *)

Ltac split_cases :=
  repeat match goal with
         | |- context [if ?b then _ else _] => destruct b eqn:?
         | |- context [match ?l with [] => _ | _ :: _ => _ end] => destruct l eqn:?
         | |- context [match ?o with Some _ => _ | None => _ end] => destruct o eqn:?
         end.

Ltac run_handler :=
  unfold_handler; unfold sendMail, transport_sendMail, maybeSingle, ok, failed;
  cbv zeta; split_cases; cbn.

Section Effects.

Variable bcrypt_hash : string -> nat -> string -> string.
Variable bcrypt_compare : string -> string -> bool.
Variable jwt_sign : Claims -> string -> Z -> string.
Variable jwt_verify : string -> string -> Z -> option Claims.
Variable cfg : Config.

Lemma existsb_email_false (email : string) (us : list User.t) :
  existsb (fun u => User.email u =? email) us = false ->
  ~ In email (map User.email us).
Proof.
  intros H Hin. apply in_map_iff in Hin as (x & Hx & Hin).
  assert (existsb (fun u => User.email u =? email) us = true); [|congruence].
  apply existsb_exists. exists x. split; [assumption | now apply String.eqb_eq].
Qed.

Lemma register_effect (env : Env) (req : Request) (w : World) :
  resets (snd (register bcrypt_hash cfg env req w)) = resets w /\
  (users (snd (register bcrypt_hash cfg env req w)) = users w \/
   (users (snd (register bcrypt_hash cfg env req w)) =
      (users w ++ [User.mk (next_id w) (template (r_name req))
                     (normalize (template (r_email req)))
                     (bcrypt_hash (template (r_password req)) 8 (salt env))
                     false (now env)])%list /\
    ~ In (normalize (template (r_email req))) (map User.email (users w)))).
Proof.
  run_handler; split; auto; right; split; auto using existsb_email_false.
Qed.

Lemma approve_effect (env : Env) (req : Request) (w : World) :
  resets (snd (approve cfg env req w)) = resets w /\
  (users (snd (approve cfg env req w)) = users w \/
   users (snd (approve cfg env req w)) =
     update_where (fun u => User.email u =? normalize (template (r_email req)))
       (User.set_approved true) (users w)).
Proof. run_handler; auto. Qed.

Lemma login_effect (env : Env) (req : Request) (w : World) :
  resets (snd (login bcrypt_compare jwt_sign cfg env req w)) = resets w /\
  users (snd (login bcrypt_compare jwt_sign cfg env req w)) = users w /\
  outbox (snd (login bcrypt_compare jwt_sign cfg env req w)) = outbox w /\
  next_id (snd (login bcrypt_compare jwt_sign cfg env req w)) = next_id w.
Proof. run_handler; auto. Qed.

Lemma forgot_effect (env : Env) (req : Request) (w : World) :
  users (snd (forgot cfg env req w)) = users w /\
  (resets (snd (forgot cfg env req w)) = resets w \/
   (resets (snd (forgot cfg env req w)) =
      (resets w ++ [Reset.mk (next_id w) (normalize (or_empty (r_email req)))
                      (random_hex env) (now env + 1800000)%Z (now env)])%list /\
    In (normalize (or_empty (r_email req))) (map User.email (users w)))).
Proof.
  run_handler; simpl in *; try congruence; split; auto; right; split; auto.
  all: subst;
       match goal with
       | H : eq_text User.email ?v ?us = [?u] |- _ =>
           assert (Hin : In u (eq_text User.email v us)) by (rewrite H; now left);
           apply eq_text_In in Hin as [Hin <-]; now apply in_map
       end.
Qed.

Lemma reset_effect (env : Env) (req : Request) (w : World) :
  (users (snd (reset bcrypt_hash env req w)) = users w \/
   users (snd (reset bcrypt_hash env req w)) =
     update_where (fun u => User.email u =? normalize (or_empty (r_email req)))
       (User.set_pass_hash (bcrypt_hash (or_empty (r_newPassword req)) 8 (salt env)))
       (users w)) /\
  (resets (snd (reset bcrypt_hash env req w)) = resets w \/
   exists id, resets (snd (reset bcrypt_hash env req w)) =
                filter (fun x => negb (Reset.id x =? id)%nat) (resets w)).
Proof. run_handler; split; eauto. Qed.

Lemma change_password_effect (env : Env) (req : Request) (w : World) :
  resets (snd (change_password bcrypt_hash bcrypt_compare jwt_verify cfg env req w))
    = resets w /\
  (users (snd (change_password bcrypt_hash bcrypt_compare jwt_verify cfg env req w))
     = users w \/
   exists id,
     users (snd (change_password bcrypt_hash bcrypt_compare jwt_verify cfg env req w)) =
       update_where (fun u => (User.id u =? id)%nat)
         (User.set_pass_hash (bcrypt_hash (template (r_newPassword req)) 8 (salt env)))
         (users w)).
Proof. run_handler; split; eauto. Qed.

End Effects.

(** ** Invariants of every run *)

Lemma update_emails (p : User.t -> bool) (f : User.t -> User.t) (us : list User.t) :
  (forall u, User.email (f u) = User.email u) ->
  map User.email (update_where p f us) = map User.email us.
Proof.
  intros Hf. unfold update_where. rewrite map_map. apply map_ext.
  intros x. destruct (p x); auto.
Qed.

Lemma same_account_refl (u : User.t) : same_account u u.
Proof. repeat split; auto. Qed.

Lemma same_account_trans (u v x : User.t) :
  same_account u v -> same_account v x -> same_account u x.
Proof.
  intros (A1 & A2 & A3 & A4 & A5) (B1 & B2 & B3 & B4 & B5).
  repeat split; try congruence. auto.
Qed.

(** Both updates the routes make keep the account. *)
Lemma update_keeps_account (p : User.t -> bool) (f : User.t -> User.t)
  (us : list User.t) (u : User.t) :
  (forall x, same_account x (f x)) ->
  In u us -> exists u', In u' (update_where p f us) /\ same_account u u'.
Proof.
  intros Hf Hin. exists (if p u then f u else u). split.
  - apply update_where_In. now exists u.
  - destruct (p u); [apply Hf | apply same_account_refl].
Qed.

Lemma set_pass_hash_same_account (h : string) (x : User.t) :
  same_account x (User.set_pass_hash h x).
Proof. repeat split; auto. Qed.

Lemma set_approved_same_account (x : User.t) :
  same_account x (User.set_approved true x).
Proof. repeat split; auto. Qed.

Section Runs.

Variable bcrypt_hash : string -> nat -> string -> string.
Variable bcrypt_compare : string -> string -> bool.
Variable jwt_sign : Claims -> string -> Z -> string.
Variable jwt_verify : string -> string -> Z -> option Claims.
Variable cfg : Config.

Lemma serve_keeps_store (ep : Endpoint) (env : Env) (req : Request) (w : World) :
  store_ok w ->
  store_ok (snd (serve bcrypt_hash bcrypt_compare jwt_sign jwt_verify cfg ep env req w)).
Proof.
  destruct (handlers_keep_store bcrypt_hash bcrypt_compare jwt_sign jwt_verify cfg env req)
    as (H1 & H2 & H3 & H4 & H5 & H6).
  destruct ep; simpl; auto.
Qed.

Lemma serve_keeps_emails_normal (ep : Endpoint) (env : Env) (req : Request) (w : World) :
  emails_normal w ->
  emails_normal (snd (serve bcrypt_hash bcrypt_compare jwt_sign jwt_verify cfg ep env req w)).
Proof.
  unfold emails_normal. intros Hw u.
  assert (Hupd : forall p f, (forall x, User.email (f x) = User.email x) ->
                 In u (update_where p f (users w)) ->
                 normalize (User.email u) = User.email u).
  { intros p f Hf Hin. apply update_where_In in Hin as (x & Hx & ->).
    destruct (p x); [rewrite Hf|]; auto. }
  destruct ep; simpl.
  - destruct (register_effect bcrypt_hash cfg env req w) as [_ [-> | [-> _]]]; auto.
    intros Hin. apply in_app_or in Hin as [Hin | [<- | []]]; auto.
    simpl. apply JsFacts.normalize_idem.
  - destruct (approve_effect cfg env req w) as [_ [-> | ->]]; auto.
    now apply Hupd.
  - destruct (login_effect bcrypt_compare jwt_sign cfg env req w) as (_ & -> & _); auto.
  - destruct (forgot_effect cfg env req w) as [-> _]; auto.
  - destruct (reset_effect bcrypt_hash env req w) as [[-> | ->] _]; auto.
    now apply Hupd.
  - destruct (change_password_effect bcrypt_hash bcrypt_compare jwt_verify cfg env req w)
      as [_ [-> | [id ->]]]; auto.
    now apply Hupd.
Qed.

Lemma serve_keeps_resets_have_users (ep : Endpoint) (env : Env) (req : Request) (w : World) :
  resets_have_users w ->
  resets_have_users (snd (serve bcrypt_hash bcrypt_compare jwt_sign jwt_verify cfg ep env req w)).
Proof.
  unfold resets_have_users. intros Hw r.
  destruct ep; simpl.
  - destruct (register_effect bcrypt_hash cfg env req w) as [-> [-> | [-> _]]]; auto.
    intros Hin. rewrite map_app. apply in_or_app. left. auto.
  - destruct (approve_effect cfg env req w) as [-> [-> | ->]]; auto.
    rewrite update_emails; auto.
  - destruct (login_effect bcrypt_compare jwt_sign cfg env req w) as (-> & -> & _); auto.
  - destruct (forgot_effect cfg env req w) as [-> [-> | [-> Hu]]]; auto.
    intros Hin. apply in_app_or in Hin as [Hin | [<- | []]]; auto.
  - destruct (reset_effect bcrypt_hash env req w) as [Hu [-> | [id ->]]].
    + destruct Hu as [-> | ->]; auto. rewrite update_emails; auto.
    + intros Hin. apply filter_In in Hin as [Hin _].
      destruct Hu as [-> | ->]; auto. rewrite update_emails; auto.
  - destruct (change_password_effect bcrypt_hash bcrypt_compare jwt_verify cfg env req w)
      as [-> [-> | [id ->]]]; auto.
    rewrite update_emails; auto.
Qed.

Lemma serve_keeps_accounts (ep : Endpoint) (env : Env) (req : Request) (w : World)
  (u : User.t) :
  In u (users w) ->
  exists u',
    In u' (users (snd (serve bcrypt_hash bcrypt_compare jwt_sign jwt_verify cfg
                         ep env req w))) /\
    same_account u u'.
Proof.
  intros Hin.
  assert (Hsame : exists u', In u' (users w) /\ same_account u u')
    by (exists u; split; [assumption | apply same_account_refl]).
  destruct ep; simpl.
  - destruct (register_effect bcrypt_hash cfg env req w) as [_ [-> | [-> _]]]; auto.
    exists u. split; [apply in_or_app; now left | apply same_account_refl].
  - destruct (approve_effect cfg env req w) as [_ [-> | ->]]; auto.
    apply update_keeps_account; auto using set_approved_same_account.
  - destruct (login_effect bcrypt_compare jwt_sign cfg env req w) as (_ & -> & _); auto.
  - destruct (forgot_effect cfg env req w) as [-> _]; auto.
  - destruct (reset_effect bcrypt_hash env req w) as [[-> | ->] _]; auto.
    apply update_keeps_account; auto using set_pass_hash_same_account.
  - destruct (change_password_effect bcrypt_hash bcrypt_compare jwt_verify cfg env req w)
      as [_ [-> | [id ->]]]; auto.
    apply update_keeps_account; auto using set_pass_hash_same_account.
Qed.

(** X1. Whatever requests the six routes serve, in whatever order and with
    whatever failing on the way, a world that meets the store's constraints,
    holds only normal-form emails and has reset rows only for emails of users
    is taken to a world of the same kind. *)
Theorem run_keeps_invariants (trace : list (Endpoint * Env * Request)) (w : World) :
  store_ok w -> emails_normal w -> resets_have_users w ->
  store_ok (run bcrypt_hash bcrypt_compare jwt_sign jwt_verify cfg trace w) /\
  emails_normal (run bcrypt_hash bcrypt_compare jwt_sign jwt_verify cfg trace w) /\
  resets_have_users (run bcrypt_hash bcrypt_compare jwt_sign jwt_verify cfg trace w).
Proof.
  revert w. induction trace as [|[[ep env] req] rest IH]; intros w H1 H2 H3; simpl.
  - auto.
  - apply IH.
    + now apply serve_keeps_store.
    + now apply serve_keeps_emails_normal.
    + now apply serve_keeps_resets_have_users.
Qed.

(** X2. No run of the service deletes a user: every row of [users] is still
    there afterwards with its key, name, email and creation time, and still
    approved if it was approved. *)
Theorem run_keeps_accounts (trace : list (Endpoint * Env * Request)) (w : World)
  (u : User.t) :
  In u (users w) ->
  exists u',
    In u' (users (run bcrypt_hash bcrypt_compare jwt_sign jwt_verify cfg trace w)) /\
    same_account u u'.
Proof.
  revert w u. induction trace as [|[[ep env] req] rest IH]; intros w u Hin; simpl.
  - exists u. split; [assumption | apply same_account_refl].
  - destruct (serve_keeps_accounts ep env req w u Hin) as (v & Hv & Huv).
    destruct (IH _ v Hv) as (x & Hx & Hvx).
    exists x. split; [assumption | now apply same_account_trans with v].
Qed.

End Runs.

(** ** What the routes leave alone *)

Section Frames.

Variable bcrypt_hash : string -> nat -> string -> string.
Variable bcrypt_compare : string -> string -> bool.
Variable jwt_sign : Claims -> string -> Z -> string.
Variable jwt_verify : string -> string -> Z -> option Claims.
Variable cfg : Config.

(** X3. A request that is answered with a client error (a status from 400 to
    499) has changed nothing: tables, key generator, outbox and console are
    what they were.  This holds on all six routes, whatever the request and
    whatever the store and the mailer do. *)
Theorem client_error_changes_nothing
  (ep : Endpoint) (env : Env) (req : Request) (w : World) :
  400 <= status (fst (serve bcrypt_hash bcrypt_compare jwt_sign jwt_verify cfg
                        ep env req w)) < 500 ->
  snd (serve bcrypt_hash bcrypt_compare jwt_sign jwt_verify cfg ep env req w) = w.
Proof.
  destruct ep; unfold serve; run_handler; intros; try lia; try reflexivity;
    simpl in *; congruence.
Qed.

(** X4. Login only reads: whatever the request and whatever fails, the rows
    of both tables, the outbox and the key generator are untouched, and the
    console gets a line only when the answer is 500. *)
Theorem login_only_reads (env : Env) (req : Request) (w : World) :
  users (snd (login bcrypt_compare jwt_sign cfg env req w)) = users w /\
  resets (snd (login bcrypt_compare jwt_sign cfg env req w)) = resets w /\
  outbox (snd (login bcrypt_compare jwt_sign cfg env req w)) = outbox w /\
  next_id (snd (login bcrypt_compare jwt_sign cfg env req w)) = next_id w /\
  (console (snd (login bcrypt_compare jwt_sign cfg env req w)) = console w \/
   status (fst (login bcrypt_compare jwt_sign cfg env req w)) = 500).
Proof. run_handler; repeat split; auto. Qed.

Lemma update_where_miss {Row} (p : Row -> bool) (f : Row -> Row) (rows : list Row)
  (x : Row) :
  In x rows -> p x = false -> In x (update_where p f rows).
Proof. intros Hin Hp. apply update_where_In. exists x. now rewrite Hp. Qed.

(** X5. A password change reaches only the addressed account.  A reset request
    leaves every user row of another email as it is, and a change-password
    request leaves every row whose key is not the one in the bearer token as
    it is -- whatever the request and whatever fails. *)
Theorem password_change_is_local (env : Env) (req : Request) (w : World) (u : User.t) :
  In u (users w) ->
  (User.email u <> normalize (or_empty (r_email req)) ->
   In u (users (snd (reset bcrypt_hash env req w)))) /\
  ((forall t c, match_bearer (or_empty (authorization req)) = Some t ->
                jwt_verify t (JWT_SECRET cfg) (now env) = Some c ->
                uid c <> User.id u) ->
   In u (users (snd (change_password bcrypt_hash bcrypt_compare jwt_verify cfg
                       env req w)))).
Proof.
  intros Hin. split.
  - intros Hne. apply String.eqb_neq in Hne.
    destruct (reset_effect bcrypt_hash env req w) as [[-> | ->] _]; auto.
    now apply update_where_miss.
  - intros Hother. unfold change_password, auth.
    destruct (match_bearer _) as [t|] eqn:Hb; [|assumption].
    destruct (jwt_verify _ _ _) as [c|] eqn:Hv; [|assumption].
    specialize (Hother t c eq_refl Hv).
    run_handler; auto.
    all: apply update_where_miss; [assumption|].
    all: apply Nat.eqb_neq; congruence.
Qed.

(** X6. Only reset and change-password write password hashes: after a
    request to any other route the hashes of the rows that were there are,
    row by row, what they were (a registration appends one). *)
Theorem other_routes_keep_hashes
  (ep : Endpoint) (env : Env) (req : Request) (w : World) :
  ep <> ResetPassword -> ep <> ChangePassword ->
  exists added,
    map User.pass_hash
      (users (snd (serve bcrypt_hash bcrypt_compare jwt_sign jwt_verify cfg
                     ep env req w))) =
    (map User.pass_hash (users w) ++ added)%list /\ length added <= 1.
Proof.
  intros H1 H2.
  assert (Hsame : forall us, us = users w ->
            exists added, map User.pass_hash us =
                          (map User.pass_hash (users w) ++ added)%list /\
                          length added <= 1).
  { intros us ->. exists []. rewrite app_nil_r. auto. }
  destruct ep; simpl; try congruence.
  - destruct (register_effect bcrypt_hash cfg env req w) as [_ [E | [E _]]]; auto.
    rewrite E, map_app. eexists. split; [reflexivity | simpl; lia].
  - destruct (approve_effect cfg env req w) as [_ [E | E]]; auto.
    rewrite E. exists []. rewrite app_nil_r. split; [|simpl; lia].
    unfold update_where. rewrite map_map. apply map_ext.
    intros x. now destruct (_ =? _).
  - destruct (login_effect bcrypt_compare jwt_sign cfg env req w) as (_ & E & _); auto.
  - destruct (forgot_effect cfg env req w) as [E _]; auto.
Qed.

End Frames.

(** ** Journeys through the routes *)

Lemma eq_text_at_most_one {Row} (col : Row -> string) (v : string) (rows : list Row) :
  NoDup (map col rows) ->
  eq_text col v rows = [] \/ exists x, eq_text col v rows = [x] /\ In x rows /\ col x = v.
Proof.
  intros ND. destruct (in_dec string_dec v (map col rows)) as [Hin | Hout].
  - right. apply in_map_iff in Hin as (x & <- & Hin). exists x.
    split; [now apply eq_text_unique | auto].
  - left. now apply eq_text_none.
Qed.

(** The row an update rewrites is the one its email selects afterwards. *)
Lemma updated_row_selected (p : User.t -> bool) (f : User.t -> User.t)
  (us : list User.t) (u : User.t) :
  (forall x, User.email (f x) = User.email x) ->
  NoDup (map User.email us) -> In u us -> p u = true ->
  eq_text User.email (User.email u) (update_where p f us) = [f u].
Proof.
  intros Hf ND Hin Hp. rewrite <- (Hf u). apply eq_text_unique.
  - now rewrite update_emails.
  - now apply update_where_hit.
Qed.

Section Journeys.

Variable bcrypt_hash : string -> nat -> string -> string.
Variable bcrypt_compare : string -> string -> bool.
Variable jwt_sign : Claims -> string -> Z -> string.
Variable jwt_verify : string -> string -> Z -> option Claims.
Variable cfg : Config.

(** X7. A registration that goes through creates one pending account and
    nothing else: with the three fields present, the email not held yet and
    store and mailer answering, the answer is 200, [users] gains one row with
    the normal form of the email, the hash of the password and
    [approved = false], [resets] is untouched, and one notice leaves for
    ADMIN_EMAIL when that address and the transport are configured (none
    otherwise). *)
Theorem register_creates_pending_account (env : Env) (req : Request) (w : World) :
  truthy (r_name req) = true -> truthy (r_email req) = true ->
  truthy (r_password req) = true ->
  select_error env = false -> insert_error env = false -> mail_error env = false ->
  ~ In (normalize (template (r_email req))) (map User.email (users w)) ->
  register bcrypt_hash cfg env req w =
  ({| status := 200;
      body := Message "Đăng ký thành công. Vui lòng đợi admin phê duyệt." |},
   {| users := users w ++
                 [User.mk (next_id w) (template (r_name req))
                    (normalize (template (r_email req)))
                    (bcrypt_hash (template (r_password req)) 8 (salt env))
                    false (now env)];
      resets := resets w;
      next_id := S (next_id w);
      outbox := outbox w ++
                  (if negb (ADMIN_EMAIL cfg =? "") then
                     match getTransporter cfg with
                     | Some _ =>
                         [{| mail_from := or_else (MAIL_FROM cfg) (SMTP_USER cfg);
                             mail_to := ADMIN_EMAIL cfg;
                             mail_subject := "Yêu cầu duyệt tài khoản mới";
                             mail_text :=
                               "Người dùng mới: " ++ template (r_name req) ++ " <"
                               ++ normalize (template (r_email req))
                               ++ ">. Dùng ADMIN_CODE để duyệt qua /api/auth/approve." |}]
                     | None => []
                     end
                   else []);
      console := console w |}).
Proof.
  intros Hn He Hp Hsel Hins Hmail Hnone.
  pose proof (eq_text_none User.email _ _ Hnone) as Hq.
  assert (Hex : existsb (fun u => User.email u =? normalize (template (r_email req)))
                  (users w) = false).
  { apply not_true_is_false. intros H. apply existsb_exists in H as (x & Hx & Hxe).
    apply String.eqb_eq in Hxe. apply Hnone. rewrite <- Hxe. now apply in_map. }
  unfold_handler. rewrite Hn, He, Hp. cbn. rewrite Hsel, Hq. cbn.
  rewrite Hins, Hex. cbn.
  unfold sendMail, transport_sendMail, ret.
  destruct (negb (ADMIN_EMAIL cfg =? "")); cbn.
  - destruct (getTransporter cfg); cbn; [rewrite Hmail; cbn|];
      unfold with_outbox, with_next_id, with_users; cbn; rewrite ?app_nil_r;
      reflexivity.
  - unfold with_next_id, with_users; cbn. now rewrite app_nil_r.
Qed.

(** What an approve request does once the code is right. *)
Lemma approve_accepted (env : Env) (req : Request) (w : World) :
  truthy (r_email req) = true -> r_code req = Some (ADMIN_CODE cfg) ->
  ADMIN_CODE cfg <> "" -> update_error env = false ->
  approve cfg env req w =
  ({| status := 200; body := Message "Đã duyệt" |},
   with_users
     (update_where (fun u => User.email u =? normalize (template (r_email req)))
        (User.set_approved true) (users w)) w).
Proof.
  intros He Hc Hadmin Hupd. apply String.eqb_neq in Hadmin.
  unfold_handler. rewrite He, Hc. cbn. rewrite Hadmin, String.eqb_refl. cbn.
  now rewrite Hupd.
Qed.

(** X8. From registration to the first session.  After a registration whose
    store calls went through (the notice to the admin may even have failed),
    a login with the registered email and password is answered 403 "Tài khoản
    chưa được duyệt"; once an approve request with the admin code has gone
    through, the same login is answered 200, provided the hasher verifies
    what it hashed. *)
Theorem registered_account_logs_in_after_approval
  (env1 env2 env3 env4 : Env) (n e p : string) (w : World) :
  (forall q c s, bcrypt_compare q (bcrypt_hash q c s) = true) ->
  n <> "" -> e <> "" -> p <> "" -> ADMIN_CODE cfg <> "" ->
  NoDup (map User.email (users w)) ->
  ~ In (normalize e) (map User.email (users w)) ->
  select_error env1 = false -> insert_error env1 = false ->
  select_error env2 = false -> update_error env3 = false ->
  select_error env4 = false ->
  let w1 := snd (register bcrypt_hash cfg env1 (register_request n e p) w) in
  let w2 := snd (approve cfg env3 (approve_request e (ADMIN_CODE cfg)) w1) in
  login bcrypt_compare jwt_sign cfg env2 (login_request e p) w1 =
    ({| status := 403; body := Message "Tài khoản chưa được duyệt" |}, w1) /\
  fst (approve cfg env3 (approve_request e (ADMIN_CODE cfg)) w1) =
    {| status := 200; body := Message "Đã duyệt" |} /\
  status (fst (login bcrypt_compare jwt_sign cfg env4 (login_request e p) w2)) = 200.
Proof.
  intros Hsound Hn He Hp Hadmin ND Hnone Hs1 Hi1 Hs2 Hu3 Hs4 w1 w2.
  set (row := User.mk (next_id w) n (normalize e)
                (bcrypt_hash p 8 (salt env1)) false (now env1)).
  assert (Hus : users w1 = (users w ++ [row])%list).
  { subst w1. apply (register_stores_normal_form bcrypt_hash cfg env1
                       (register_request n e p) w);
      cbn [register_request r_name r_email r_password template];
      auto using truthy_nonempty. }
  assert (ND1 : NoDup (map User.email (users w1))).
  { rewrite Hus, map_app. now apply NoDup_snoc. }
  assert (Hin : In row (users w1)) by (rewrite Hus; apply in_or_app; right; now left).
  assert (Hq1 : eq_text User.email (normalize e) (users w1) = [row])
    by (apply (eq_text_unique User.email (users w1) row); assumption).
  split; [|split].
  - now apply (login_pending_account bcrypt_compare jwt_sign cfg env2
                 (login_request e p) w1 row).
  - subst w2. rewrite approve_accepted; cbn [approve_request r_email r_code];
      auto using truthy_nonempty.
  - subst w2. rewrite approve_accepted; cbn [approve_request r_email r_code];
      auto using truthy_nonempty.
    cbn [snd template].
    rewrite (login_selected bcrypt_compare jwt_sign cfg env4 (login_request e p) _
               (User.set_approved true row)); [|assumption|].
    + cbn. now rewrite Hsound.
    + cbn [users with_users login_request r_email or_empty].
      apply (updated_row_selected _ (User.set_approved true) (users w1) row);
        auto. cbn. apply String.eqb_refl.
Qed.

(** X9. Approval needs the configured admin code.  A request is answered 200
    only if its code is the non-empty ADMIN_CODE (so with ADMIN_CODE unset no
    request is ever approved); a request with any other code, or none, is
    answered 400 or 403 and changes nothing, whatever the store would do. *)
Theorem approve_needs_admin_code (env : Env) (req : Request) (w : World) :
  (status (fst (approve cfg env req w)) = 200 ->
   r_code req = Some (ADMIN_CODE cfg) /\ ADMIN_CODE cfg <> "" /\
   truthy (r_email req) = true) /\
  (r_code req <> Some (ADMIN_CODE cfg) \/ ADMIN_CODE cfg = "" ->
   snd (approve cfg env req w) = w /\
   (status (fst (approve cfg env req w)) = 400 \/
    status (fst (approve cfg env req w)) = 403)).
Proof.
  unfold_handler.
  destruct (truthy (r_email req)) eqn:He; cbn; [|split; [discriminate | auto]].
  destruct (r_code req) as [c|] eqn:Hc; cbn; [|split; [discriminate | auto]].
  destruct (c =? "") eqn:Hc0; cbn; [split; [discriminate | auto]|].
  destruct (ADMIN_CODE cfg =? "") eqn:Ha; cbn; [split; [discriminate | auto]|].
  destruct (c =? ADMIN_CODE cfg) eqn:Hca; cbn; [|split; [discriminate | auto]].
  apply String.eqb_eq in Hca. apply String.eqb_neq in Ha. subst c.
  split; [auto|]. intros [H | H]; congruence.
Qed.

Lemma update_where_idem {Row} (p : Row -> bool) (f : Row -> Row) (rows : list Row) :
  (forall x, p (f x) = p x) -> (forall x, f (f x) = f x) ->
  update_where p f (update_where p f rows) = update_where p f rows.
Proof.
  intros Hp Hf. unfold update_where. rewrite map_map. apply map_ext.
  intros x. destruct (p x) eqn:E; [rewrite Hp, E; apply Hf | now rewrite E].
Qed.

(** X10. An approval sets the flag and nothing else, and a second one changes
    nothing more: with the admin code and the update carried out, the rows of
    the approved email get [approved = true] with every other column as it
    was, every other row and table stays, and approving again leaves the
    world exactly as the first approval left it. *)
Theorem approve_sets_flag_once (env1 env2 : Env) (req : Request) (w : World) :
  truthy (r_email req) = true -> r_code req = Some (ADMIN_CODE cfg) ->
  ADMIN_CODE cfg <> "" -> update_error env1 = false -> update_error env2 = false ->
  let w1 := snd (approve cfg env1 req w) in
  resets w1 = resets w /\ outbox w1 = outbox w /\ next_id w1 = next_id w /\
  users w1 =
    map (fun u => if User.email u =? normalize (template (r_email req))
                  then User.mk (User.id u) (User.name u) (User.email u)
                         (User.pass_hash u) true (User.created_at u)
                  else u) (users w) /\
  approve cfg env2 req w1 = ({| status := 200; body := Message "Đã duyệt" |}, w1).
Proof.
  intros He Hc Hadmin Hu1 Hu2 w1. subst w1.
  rewrite (approve_accepted env1 req w He Hc Hadmin Hu1). cbn [snd].
  repeat split.
  rewrite (approve_accepted env2 req _ He Hc Hadmin Hu2). f_equal.
  unfold with_users. cbn. f_equal. now apply update_where_idem.
Qed.

(** X11. Forgot does not tell whether the email is registered: with a store
    that keeps emails unique and answers, and a mailer that is either not
    configured or does not fail, every request is answered 200 with the one
    generic message; for an email that no user holds nothing changes. *)
Theorem forgot_answer_is_uniform (env : Env) (req : Request) (w : World) :
  NoDup (map User.email (users w)) ->
  select_error env = false -> insert_error env = false ->
  mail_error env = false \/ getTransporter cfg = None ->
  fst (forgot cfg env req w) =
    {| status := 200; body := Message "Nếu email tồn tại, chúng tôi đã gửi hướng dẫn." |} /\
  (~ In (normalize (or_empty (r_email req))) (map User.email (users w)) ->
   snd (forgot cfg env req w) = w).
Proof.
  intros ND Hsel Hins Hmail.
  destruct (eq_text_at_most_one User.email (normalize (or_empty (r_email req)))
              (users w) ND) as [Hq | (u & Hq & Hin & Hu)].
  - unfold_handler. rewrite Hsel, Hq. cbn. auto.
  - unfold_handler. rewrite Hsel, Hq. cbn. rewrite Hins. cbn.
    unfold sendMail, transport_sendMail, ret. split.
    + destruct Hmail as [-> | ->]; [destruct (getTransporter cfg)|]; reflexivity.
    + intros Hnone. exfalso. apply Hnone. rewrite <- Hu. now apply in_map.
Qed.

(** X12. A new reset token does not touch the earlier ones: after any forgot
    request every reset row that was in the table is still there, and a token
    other than the one just drawn selects exactly the rows it selected
    before. *)
Theorem forgot_keeps_earlier_tokens
  (env : Env) (req : Request) (w : World) (email token : string) :
  (forall r, In r (resets w) -> In r (resets (snd (forgot cfg env req w)))) /\
  (token <> random_hex env ->
   matching_resets email token (snd (forgot cfg env req w)) =
   matching_resets email token w).
Proof.
  destruct (forgot_effect cfg env req w) as [_ [E | [E _]]].
  - split; [now rewrite E | intros _; unfold matching_resets; now rewrite E].
  - split.
    + intros r Hin. rewrite E. apply in_or_app. now left.
    + intros Hne. unfold matching_resets, eq_text. rewrite E, !filter_app. simpl.
      destruct (normalize (or_empty (r_email req)) =? email); simpl.
      * apply not_eq_sym in Hne. apply String.eqb_neq in Hne. rewrite Hne.
        now rewrite app_nil_r.
      * now rewrite app_nil_r.
Qed.

(** X13. From a forgotten password to a session.  When forgot has inserted a
    row for an approved user with a token not drawn before, a reset request
    with that token, sent no later than thirty minutes after, is answered 200,
    and a login with the new password is then answered 200 -- provided the
    hasher verifies what it hashed and the store carried out the calls. *)
Theorem forgot_reset_login
  (env1 env2 env3 : Env) (asked chosen again : Request) (w : World) (u : User.t)
  (p : string) :
  (forall q c s, bcrypt_compare q (bcrypt_hash q c s) = true) ->
  NoDup (map User.email (users w)) -> In u (users w) ->
  User.approved u = true ->
  User.email u = normalize (or_empty (r_email asked)) ->
  normalize (or_empty (r_email chosen)) = User.email u ->
  normalize (or_empty (r_email again)) = User.email u ->
  ~ In (random_hex env1) (map Reset.token (resets w)) ->
  r_token chosen = Some (random_hex env1) ->
  r_newPassword chosen = Some p -> r_password again = Some p ->
  select_error env1 = false -> insert_error env1 = false ->
  select_error env2 = false -> update_error env2 = false ->
  (now env2 <= now env1 + 1800000)%Z ->
  select_error env3 = false ->
  let w1 := snd (forgot cfg env1 asked w) in
  let w2 := snd (reset bcrypt_hash env2 chosen w1) in
  fst (reset bcrypt_hash env2 chosen w1) =
    {| status := 200; body := Message "Đã đặt lại mật khẩu" |} /\
  status (fst (login bcrypt_compare jwt_sign cfg env3 again w2)) = 200.
Proof.
  intros Hsound ND Hin Happ Hmail Hmail2 Hmail3 Hfresh Htok Hnew Hpw
         Hs1 Hi1 Hs2 Hu2 Htime Hs3 w1 w2.
  assert (Hq : eq_text User.email (normalize (or_empty (r_email asked))) (users w) = [u])
    by (rewrite <- Hmail; now apply eq_text_unique).
  pose proof (forgot_token_selects_its_row cfg env1 asked w u Hs1 Hi1 Hq Hfresh) as Hm.
  fold w1 in Hm.
  set (row := Reset.mk (next_id w) (normalize (or_empty (r_email asked)))
                (random_hex env1) (now env1 + 1800000)%Z (now env1)) in Hm.
  assert (Hm' : matching_resets (normalize (or_empty (r_email chosen)))
                  (template (r_token chosen)) w1 = [row]).
  { rewrite Hmail2, Hmail, Htok. exact Hm. }
  destruct (reset_accepted bcrypt_hash env2 chosen w1 row Hs2 Hu2 Hm' Htime)
    as (H1 & H2 & _).
  split; [exact H1|].
  assert (Hus : users w1 = users w) by (subst w1; apply forgot_effect).
  subst w2.
  rewrite (login_selected bcrypt_compare jwt_sign cfg env3 again _
             (User.set_pass_hash (bcrypt_hash p 8 (salt env2)) u) Hs3).
  - cbn. rewrite Happ, Hpw. cbn. now rewrite Hsound.
  - rewrite H2, Hus, Hmail3, Hmail2, Hnew. cbn [or_empty].
    apply (updated_row_selected _ (User.set_pass_hash (bcrypt_hash p 8 (salt env2)))
             (users w) u); auto. apply String.eqb_refl.
Qed.

(** X14. With the store down no request succeeds and no row changes: every
    call failing, login, forgot and reset are answered 500 "Lỗi server", no
    route answers 200 or 404, and both tables are what they were. *)
Theorem store_down_nothing_succeeds
  (ep : Endpoint) (env : Env) (req : Request) (w : World) :
  store_down env ->
  users (snd (serve bcrypt_hash bcrypt_compare jwt_sign jwt_verify cfg ep env req w))
    = users w /\
  resets (snd (serve bcrypt_hash bcrypt_compare jwt_sign jwt_verify cfg ep env req w))
    = resets w /\
  In (status (fst (serve bcrypt_hash bcrypt_compare jwt_sign jwt_verify cfg
                     ep env req w))) [400; 401; 403; 500] /\
  (ep = Login \/ ep = Forgot \/ ep = ResetPassword ->
   fst (serve bcrypt_hash bcrypt_compare jwt_sign jwt_verify cfg ep env req w) =
     {| status := 500; body := Message "Lỗi server" |}).
Proof.
  intros (Hs & Hi & Hu & Hd).
  destruct ep; unfold serve; unfold_handler;
    unfold sendMail, transport_sendMail, maybeSingle, ok, failed;
    rewrite ?Hs, ?Hi, ?Hu, ?Hd; cbn; split_cases; cbn; rewrite ?Hs, ?Hi, ?Hu, ?Hd;
    cbn; repeat split; auto;
    try (intros [H | [H | H]]; (discriminate H || reflexivity)).
Qed.

(** X15. Without a complete SMTP configuration the mailer is out of the
    picture: when one of SMTP_HOST, SMTP_PORT, SMTP_USER, SMTP_PASS is
    missing or empty, register and forgot behave the same whether or not the
    transport would fail, and they put nothing in the outbox. *)
Theorem unconfigured_mailer_is_silent
  (b : bool) (env : Env) (req : Request) (w : World) :
  truthy (SMTP_HOST cfg) = false \/ truthy (SMTP_PORT cfg) = false \/
  truthy (SMTP_USER cfg) = false \/ truthy (SMTP_PASS cfg) = false ->
  register bcrypt_hash cfg (with_mail_error b env) req w =
    register bcrypt_hash cfg env req w /\
  forgot cfg (with_mail_error b env) req w = forgot cfg env req w /\
  outbox (snd (register bcrypt_hash cfg env req w)) = outbox w /\
  outbox (snd (forgot cfg env req w)) = outbox w.
Proof.
  intros H.
  assert (Htp : getTransporter cfg = None).
  { unfold getTransporter.
    destruct H as [-> | [-> | [-> | ->]]]; cbn; rewrite ?orb_true_r; reflexivity. }
  repeat split; unfold_handler; unfold sendMail; rewrite Htp; cbn;
    try reflexivity; split_cases; reflexivity.
Qed.

End Journeys.

(** ** The Authorization header *)

Module BearerFacts.

Lemma length_app (a b : string) :
  String.length (a ++ b) = String.length a + String.length b.
Proof. induction a as [|c a IH]; simpl; [reflexivity | now rewrite IH]. Qed.

Lemma app_empty_r (a : string) : a ++ "" = a.
Proof. induction a as [|c a IH]; simpl; [reflexivity | now rewrite IH]. Qed.

Lemma app_assoc_s (a b c : string) : (a ++ b) ++ c = a ++ (b ++ c).
Proof. induction a as [|x a IH]; simpl; [reflexivity | now rewrite IH]. Qed.

Lemma substring_all (s : string) : substring 0 (String.length s) s = s.
Proof. induction s as [|c s IH]; simpl; [reflexivity | now rewrite IH]. Qed.

Lemma substring_none (s : string) : substring 0 0 s = "".
Proof. now destruct s. Qed.

Lemma all_space_app (a b : string) :
  all_space (a ++ b) = all_space a && all_space b.
Proof.
  induction a as [|c a IH]; simpl; [reflexivity|].
  now rewrite IH, andb_assoc.
Qed.

(** [trimStart] drops a run of white space and nothing else. *)
Lemma trimStart_split (s : string) :
  exists ws, s = ws ++ trimStart s /\ all_space ws = true.
Proof.
  induction s as [|c s (ws & E & Hws)]; simpl.
  - now exists "".
  - destruct (is_space c) eqn:Ec.
    + exists (String c ws). simpl. rewrite Ec, Hws. split; [now rewrite <- E | reflexivity].
    + now exists "".
Qed.

Lemma trimStart_padding (ws t : string) :
  all_space ws = true -> no_leading_space t -> trimStart (ws ++ t) = t.
Proof.
  induction ws as [|c ws IH]; simpl; intros Hws Ht.
  - now apply JsFacts.trimStart_fixed.
  - apply andb_true_iff in Hws as [-> Hws]. now apply IH.
Qed.

Lemma trimStart_all_space (s : string) : trimStart s = "" -> all_space s = true.
Proof.
  induction s as [|c s IH]; simpl; [reflexivity|].
  destruct (is_space c); [exact IH | discriminate].
Qed.

Lemma last_char_split (s : string) (c : ascii) :
  last_char s = Some c -> exists init, s = init ++ String c "".
Proof.
  induction s as [|x s IH]; simpl; [discriminate|].
  destruct s as [|y s].
  - intros [= ->]. now exists "".
  - intros H. destruct (IH H) as (init & ->). now exists (String x init).
Qed.

(** The header is accepted when it reads: the scheme in any case, some white
    space, a token. *)
Lemma match_bearer_accepts (p ws t : string) :
  toLowerCase p = "bearer" -> all_space ws = true -> ws <> "" ->
  t <> "" -> no_leading_space t -> all_dot t = true ->
  match_bearer (p ++ ws ++ t) = Some t.
Proof.
  intros Hp Hws Hne Ht Hlead Hdot.
  destruct p as [|c1 [|c2 [|c3 [|c4 [|c5 [|c6 [|c7 p]]]]]]]; try discriminate Hp.
  unfold match_bearer.
  cbn [append String.length Nat.leb Nat.sub substring].
  rewrite substring_none, Hp. cbn [String.eqb Ascii.eqb Bool.eqb andb].
  rewrite Nat.sub_0_r, substring_all, trimStart_padding by assumption.
  rewrite length_app.
  replace (String.length ws + String.length t - String.length t)
    with (String.length ws) by lia.
  destruct ws as [|w0 ws]; [congruence|]. cbn [String.length Nat.eqb].
  destruct t as [|t0 t]; [congruence|]. now rewrite Hdot.
Qed.

End BearerFacts.

Section BearerTokens.

Variable bcrypt_hash : string -> nat -> string -> string.
Variable bcrypt_compare : string -> string -> bool.
Variable jwt_sign : Claims -> string -> Z -> string.
Variable jwt_verify : string -> string -> Z -> option Claims.
Variable cfg : Config.

(** X16. The Authorization header is read as the pattern says.  A header made
    of the word "bearer" in any mix of cases, white space, and a token without
    line breaks that does not begin with white space yields that token; and
    whatever a header yields is a non-empty end of it, free of line breaks,
    preceded by the scheme and at least one white space character. *)
Theorem bearer_header_parsed (h p ws t : string) :
  (toLowerCase p = "bearer" -> all_space ws = true -> ws <> "" ->
   t <> "" -> no_leading_space t -> all_dot t = true ->
   match_bearer (p ++ ws ++ t) = Some t) /\
  (match_bearer h = Some t ->
   exists p' ws', h = p' ++ ws' ++ t /\ toLowerCase p' = "bearer" /\
                  all_space ws' = true /\ ws' <> "" /\ t <> "" /\ all_dot t = true).
Proof.
  split; [apply BearerFacts.match_bearer_accepts|].
  clear p ws.
  unfold match_bearer.
  destruct (toLowerCase (substring 0 6 h) =? "bearer") eqn:Hp; [|discriminate].
  destruct (6 <=? String.length h)%nat eqn:Hlen; [|discriminate].
  cbn [andb].
  destruct h as [|c1 [|c2 [|c3 [|c4 [|c5 [|c6 rest]]]]]]; try discriminate Hlen.
  cbn [String.length Nat.sub substring].
  rewrite Nat.sub_0_r, BearerFacts.substring_all.
  apply String.eqb_eq in Hp.
  cbn [substring] in Hp. rewrite BearerFacts.substring_none in Hp.
  destruct (BearerFacts.trimStart_split rest) as (ws & E & Hws).
  destruct (String.length rest - String.length (trimStart rest) =? 0)%nat eqn:Hk;
    [discriminate|].
  apply Nat.eqb_neq in Hk.
  destruct (trimStart rest) as [|t0 tl] eqn:Htail.
  - cbn [String.length]. rewrite Nat.sub_0_r.
    destruct (last_char rest) as [c|] eqn:Hlast; [|discriminate].
    destruct (2 <=? String.length rest)%nat eqn:H2; [|discriminate].
    destruct (is_line_terminator c) eqn:Hlt; [discriminate|].
    cbn [negb andb]. intros [= <-].
    apply Nat.leb_le in H2.
    destruct (BearerFacts.last_char_split rest c Hlast) as (init & Hinit).
    exists (String c1 (String c2 (String c3 (String c4 (String c5 (String c6 "")))))), init.
    assert (Hall : all_space rest = true) by now apply BearerFacts.trimStart_all_space.
    rewrite Hinit, BearerFacts.all_space_app in Hall. apply andb_true_iff in Hall as [Hi _].
    repeat split; try assumption.
    + cbn [append]. now rewrite Hinit.
    + intros ->. rewrite Hinit in H2. cbn in H2. lia.
    + discriminate.
    + cbn. now rewrite Hlt.
  - destruct (all_dot (String t0 tl)) eqn:Hdot; [|discriminate].
    intros [= <-].
    exists (String c1 (String c2 (String c3 (String c4 (String c5 (String c6 "")))))), ws.
    repeat split; try assumption.
    + cbn [append]. now rewrite <- E.
    + intros ->. cbn in E. rewrite E in Hk. cbn in Hk. lia.
    + discriminate.
Qed.

(** X17. Nothing gets past the middleware without a token that verifies: a
    change-password request that is not answered 401 carried a header from
    which a token was read and which jsonwebtoken accepted; a request without
    such a header is answered 401 and changes nothing, before its body is
    looked at. *)
Theorem change_password_requires_valid_token (env : Env) (req : Request) (w : World) :
  (status (fst (change_password bcrypt_hash bcrypt_compare jwt_verify cfg env req w))
     <> 401 ->
   exists t c, match_bearer (or_empty (authorization req)) = Some t /\
               jwt_verify t (JWT_SECRET cfg) (now env) = Some c) /\
  ((forall t, match_bearer (or_empty (authorization req)) = Some t ->
              jwt_verify t (JWT_SECRET cfg) (now env) = None) ->
   status (fst (change_password bcrypt_hash bcrypt_compare jwt_verify cfg env req w))
     = 401 /\
   snd (change_password bcrypt_hash bcrypt_compare jwt_verify cfg env req w) = w).
Proof.
  unfold change_password, auth.
  destruct (match_bearer (or_empty (authorization req))) as [t|] eqn:Hb.
  - destruct (jwt_verify t (JWT_SECRET cfg) (now env)) as [c|] eqn:Hv.
    + split; [eauto|]. intros H. specialize (H t eq_refl). congruence.
    + split; [intros H; now cbn in H | auto].
  - split; [intros H; now cbn in H | auto].
Qed.

(** X18. The session login hands out opens change-password for that user.
    When an approved user logs in with a password the stored hash verifies,
    the answer is 200 with the token signed for the user's id, email and name
    and with those three public fields; presenting that token as
    "Bearer <token>" with the same password as [oldPassword] and a new
    password is answered 200 and puts the hash of the new password on that
    user's row -- as long as jsonwebtoken still verifies the token and the
    token is printable (non-empty, no white space in front, no line break). *)
Theorem session_token_changes_password
  (env1 env2 : Env) (first second : Request) (w : World) (u : User.t) (fresh : string) :
  NoDup (map User.email (users w)) -> NoDup (map User.id (users w)) ->
  In u (users w) -> User.approved u = true ->
  User.email u = normalize (or_empty (r_email first)) ->
  bcrypt_compare (or_empty (r_password first)) (User.pass_hash u) = true ->
  select_error env1 = false -> select_error env2 = false -> update_error env2 = false ->
  let claims := {| uid := User.id u; c_email := User.email u; c_name := User.name u |} in
  let token := jwt_sign claims (JWT_SECRET cfg) (now env1) in
  jwt_verify token (JWT_SECRET cfg) (now env2) = Some claims ->
  token <> "" -> no_leading_space token -> all_dot token = true ->
  authorization second = Some ("Bearer " ++ token) ->
  r_oldPassword second = r_password first ->
  r_newPassword second = Some fresh -> fresh <> "" ->
  login bcrypt_compare jwt_sign cfg env1 first w =
    ({| status := 200;
        body := Session token (User.id u) (User.email u) (User.name u) |}, w) /\
  fst (change_password bcrypt_hash bcrypt_compare jwt_verify cfg env2 second w) =
    {| status := 200; body := Message "Đã đổi mật khẩu" |} /\
  In (User.mk (User.id u) (User.name u) (User.email u)
        (bcrypt_hash fresh 8 (salt env2)) (User.approved u) (User.created_at u))
    (users (snd (change_password bcrypt_hash bcrypt_compare jwt_verify cfg env2 second w)))
  /\
  (exists u',
     In u' (users (snd (change_password bcrypt_hash bcrypt_compare jwt_verify cfg
                          env2 second w))) /\
     User.id u' = User.id u /\
     User.pass_hash u' = bcrypt_hash fresh 8 (salt env2)).
Proof.
  intros NDm NDi Hin Happ Hmail Hcmp Hs1 Hs2 Hu2 claims token Hver Hne Hlead Hdot
         Hauth Hold Hnew Hfresh.
  assert (Hq : eq_text User.email (normalize (or_empty (r_email first))) (users w) = [u])
    by (rewrite <- Hmail; now apply eq_text_unique).
  assert (Hb : match_bearer (or_empty (authorization second)) = Some token).
  { rewrite Hauth. cbn [or_empty].
    apply (BearerFacts.match_bearer_accepts "Bearer" " " token); auto. discriminate. }
  assert (Hi : eq_id User.id (uid claims) (users w) = [u])
    by (apply (eq_id_unique User.id (users w) u); assumption).
  assert (Ht : truthy (r_newPassword second) = true)
    by (rewrite Hnew; now apply truthy_nonempty).
  split; [|split].
  - rewrite (login_selected bcrypt_compare jwt_sign cfg env1 first w u Hs1 Hq).
    now rewrite Happ, Hcmp.
  - rewrite (change_password_selected bcrypt_hash bcrypt_compare jwt_verify cfg
               env2 second w u token claims Hb Hver Hs2 Hi Ht).
    now rewrite Hold, Hcmp, Hu2.
  - assert (Hrow : In (User.mk (User.id u) (User.name u) (User.email u)
                        (bcrypt_hash fresh 8 (salt env2)) (User.approved u)
                        (User.created_at u))
                     (users (snd (change_password bcrypt_hash bcrypt_compare jwt_verify
                                    cfg env2 second w)))).
    { rewrite (change_password_selected bcrypt_hash bcrypt_compare jwt_verify cfg
                 env2 second w u token claims Hb Hver Hs2 Hi Ht).
      rewrite Hold, Hcmp, Hu2, Hnew. cbn.
      apply update_where_In. exists u. split; [assumption|].
      now rewrite Nat.eqb_refl. }
    split; [exact Hrow|]. eexists. split; [exact Hrow|]. split; reflexivity.
Qed.

End BearerTokens.

(** ** The CORS guard *)



(** The guard is permissive unless PERMISSIVE_CORS says otherwise. *)
Lemma PERMISSIVE_CORS_default (setting : value) :
  PERMISSIVE_CORS setting = true <->
  truthy setting = false \/ exists s, setting = Some s /\ toLowerCase s = "true".
Proof.
  unfold PERMISSIVE_CORS, or_else.
  destruct (truthy setting) eqn:T.
  - destruct setting as [s|]; [|discriminate T]. cbn. rewrite String.eqb_eq. split.
    + intros H. right. eauto.
    + intros [H | (s' & [= <-] & H)]; [discriminate | assumption].
  - cbn. split; auto.
Qed.

(** ** Email normal form, again *)

Module NormalFacts.

Lemma trimEnd_all_space (b : string) : all_space b = true -> trimEnd b = "".
Proof.
  induction b as [|c b IH]; simpl; [reflexivity|].
  intros H. apply andb_true_iff in H as [Hc Hb]. now rewrite (IH Hb), Hc.
Qed.

Lemma trimEnd_padding (s b : string) : all_space b = true -> trimEnd (s ++ b) = trimEnd s.
Proof.
  intros Hb. induction s as [|c s IH]; simpl.
  - now apply trimEnd_all_space.
  - now rewrite IH.
Qed.

Lemma trimStart_drops_padding (a s : string) :
  all_space a = true -> trimStart (a ++ s) = trimStart s.
Proof.
  induction a as [|c a IH]; simpl; [reflexivity|].
  intros H. apply andb_true_iff in H as [-> Ha]. now apply IH.
Qed.

Lemma trimStart_app (s b : string) :
  trimStart s <> "" -> trimStart (s ++ b) = trimStart s ++ b.
Proof.
  induction s as [|c s IH]; simpl; [congruence|].
  destruct (is_space c); [exact IH | reflexivity].
Qed.

Lemma toLowerCase_app (a b : string) :
  toLowerCase (a ++ b) = toLowerCase a ++ toLowerCase b.
Proof. induction a as [|c a IH]; simpl; [reflexivity | now rewrite IH]. Qed.

End NormalFacts.

(** X20. The normal form of an email ignores letter case and surrounding
    white space: padding a string with white space on either side, or
    replacing it by a string that differs only in the case of its letters,
    does not change what [String(email).trim().toLowerCase()] returns; and
    the normal form is its own normal form. *)
Theorem normalize_ignores_case_and_padding (a s s' b : string) :
  all_space a = true -> all_space b = true -> toLowerCase s = toLowerCase s' ->
  normalize (a ++ s ++ b) = normalize s' /\
  normalize (normalize s) = normalize s.
Proof.
  intros Ha Hb Hs. split; [|apply JsFacts.normalize_idem].
  rewrite !JsFacts.normalize_trim_lower, <- Hs.
  rewrite !NormalFacts.toLowerCase_app.
  assert (Ha' : all_space (toLowerCase a) = true).
  { clear - Ha. induction a as [|c a IH]; simpl in *; [reflexivity|].
    apply andb_true_iff in Ha as [Hc Hr]. now rewrite JsFacts.is_space_lower_char, Hc, IH. }
  assert (Hb' : all_space (toLowerCase b) = true).
  { clear - Hb. induction b as [|c b IH]; simpl in *; [reflexivity|].
    apply andb_true_iff in Hb as [Hc Hr]. now rewrite JsFacts.is_space_lower_char, Hc, IH. }
  unfold trim. rewrite NormalFacts.trimStart_drops_padding by assumption.
  destruct (trimStart (toLowerCase s)) as [|c r] eqn:E.
  - assert (Hall : all_space (toLowerCase s ++ toLowerCase b) = true).
    { rewrite BearerFacts.all_space_app, Hb'.
      now rewrite (BearerFacts.trimStart_all_space _ E). }
    destruct (BearerFacts.trimStart_split (toLowerCase s ++ toLowerCase b))
      as (ws & E' & Hws).
    assert (Hnil : trimStart (toLowerCase s ++ toLowerCase b) = "").
    { clear - Hall. induction (toLowerCase s ++ toLowerCase b) as [|c x IH];
        simpl in *; [reflexivity|].
      apply andb_true_iff in Hall as [-> Hr]. now apply IH. }
    now rewrite Hnil.
  - rewrite NormalFacts.trimStart_app by (rewrite E; discriminate).
    rewrite E. now apply NormalFacts.trimEnd_padding.
Qed.

(** ** The further properties on concrete requests *)

Lemma run_keeps_invariants_witness :
  store_ok (run plain_hash plain_compare demo_sign demo_verify demo_cfg
              demo_trace empty_world) /\
  emails_normal (run plain_hash plain_compare demo_sign demo_verify demo_cfg
                   demo_trace empty_world) /\
  resets_have_users (run plain_hash plain_compare demo_sign demo_verify demo_cfg
                       demo_trace empty_world).
Proof.
  apply (run_keeps_invariants plain_hash plain_compare demo_sign demo_verify demo_cfg
           demo_trace empty_world).
  - apply store_ok_empty.
  - intros u [].
  - intros r [].
Defined.

Lemma run_keeps_accounts_witness :
  exists u',
    In u' (users (run plain_hash plain_compare demo_sign demo_verify demo_cfg
                    demo_trace (demo_world true))) /\
    same_account (demo_user true) u'.
Proof.
  apply (run_keeps_accounts plain_hash plain_compare demo_sign demo_verify demo_cfg
           demo_trace (demo_world true) (demo_user true)).
  now left.
Defined.

Lemma client_error_changes_nothing_witness :
  snd (serve plain_hash plain_compare demo_sign demo_verify demo_cfg
         Login (calm 1000) (login_request "a@x.com" "wrong") (demo_world true)) =
  demo_world true.
Proof.
  apply (client_error_changes_nothing plain_hash plain_compare demo_sign demo_verify
           demo_cfg Login (calm 1000) (login_request "a@x.com" "wrong")
           (demo_world true)).
  vm_compute. split; repeat constructor.
Defined.

Lemma password_change_is_local_witness :
  (fst (reset plain_hash (calm 1000) (reset_request "a@x.com" "t0k3n" (Some "p2"))
          pair_world) =
     {| status := 200; body := Message "Đã đặt lại mật khẩu" |} /\
   map User.pass_hash
     (users (snd (reset plain_hash (calm 1000)
                    (reset_request "a@x.com" "t0k3n" (Some "p2")) pair_world))) =
     ["p2"; "q1"] /\
   In demo_other
     (users (snd (reset plain_hash (calm 1000)
                    (reset_request "a@x.com" "t0k3n" (Some "p2")) pair_world)))) /\
  (fst (change_password plain_hash plain_compare demo_verify demo_cfg (calm 1000)
          (change_request "Bearer token-0" "p1" "p3") pair_world) =
     {| status := 200; body := Message "Đã đổi mật khẩu" |} /\
   map User.pass_hash
     (users (snd (change_password plain_hash plain_compare demo_verify demo_cfg
                    (calm 1000) (change_request "Bearer token-0" "p1" "p3")
                    pair_world))) = ["p3"; "q1"] /\
   In demo_other
     (users (snd (change_password plain_hash plain_compare demo_verify demo_cfg
                    (calm 1000) (change_request "Bearer token-0" "p1" "p3")
                    pair_world)))).
Proof.
  assert (Hin : In demo_other (users pair_world)) by (right; now left).
  split; (split; [reflexivity | split; [reflexivity|]]).
  - apply (password_change_is_local plain_hash plain_compare demo_verify demo_cfg
             (calm 1000) (reset_request "a@x.com" "t0k3n" (Some "p2"))
             pair_world demo_other Hin).
    vm_compute. discriminate.
  - apply (password_change_is_local plain_hash plain_compare demo_verify demo_cfg
             (calm 1000) (change_request "Bearer token-0" "p1" "p3")
             pair_world demo_other Hin).
    intros t c Ht Hc. vm_compute in Ht. injection Ht as <-.
    vm_compute in Hc. injection Hc as <-. discriminate.
Defined.

Lemma other_routes_keep_hashes_witness :
  exists added,
    map User.pass_hash
      (users (snd (serve plain_hash plain_compare demo_sign demo_verify demo_cfg
                     Register (calm 1000) (register_request "B" "b@x.com" "p9")
                     (demo_world true)))) =
    (map User.pass_hash (users (demo_world true)) ++ added)%list /\
    length added <= 1.
Proof.
  apply (other_routes_keep_hashes plain_hash plain_compare demo_sign demo_verify
           demo_cfg Register (calm 1000) (register_request "B" "b@x.com" "p9")
           (demo_world true)); discriminate.
Defined.

Lemma register_creates_pending_account_witness :
  users (snd (register plain_hash demo_cfg (calm 1000)
                (register_request "B" " B@x.com" "p9") (demo_world true))) =
    [demo_user true; User.mk 2 "B" "b@x.com" "p9" false 1000] /\
  map mail_to (outbox (snd (register plain_hash demo_cfg (calm 1000)
                              (register_request "B" " B@x.com" "p9")
                              (demo_world true)))) = ["admin@x.com"].
Proof.
  rewrite (register_creates_pending_account plain_hash demo_cfg (calm 1000)
             (register_request "B" " B@x.com" "p9") (demo_world true));
    try reflexivity.
  - split; reflexivity.
  - vm_compute. intros [H | []]. discriminate H.
Defined.

Lemma registered_account_logs_in_after_approval_witness :
  login plain_compare demo_sign demo_cfg (calm 2000) (login_request "B@x.com" "p9")
    (snd (register plain_hash demo_cfg (mail_down 1000)
            (register_request "B" "B@x.com" "p9") (demo_world true))) =
    ({| status := 403; body := Message "Tài khoản chưa được duyệt" |},
     snd (register plain_hash demo_cfg (mail_down 1000)
            (register_request "B" "B@x.com" "p9") (demo_world true))) /\
  status (fst (login plain_compare demo_sign demo_cfg (calm 4000)
                 (login_request "B@x.com" "p9")
                 (snd (approve demo_cfg (calm 3000) (approve_request "B@x.com" "s3cret")
                         (snd (register plain_hash demo_cfg (mail_down 1000)
                                 (register_request "B" "B@x.com" "p9")
                                 (demo_world true))))))) = 200.
Proof.
  assert (ND : NoDup (map User.email (users (demo_world true))))
    by (repeat constructor; intros []).
  assert (Hnone : ~ In (normalize "B@x.com") (map User.email (users (demo_world true))))
    by (vm_compute; intros [H | []]; discriminate H).
  destruct (registered_account_logs_in_after_approval plain_hash plain_compare
              demo_sign demo_cfg (mail_down 1000) (calm 2000) (calm 3000) (calm 4000)
              "B" "B@x.com" "p9" (demo_world true) plain_hash_sound)
    as (H1 & _ & H3); try assumption; try reflexivity; try discriminate.
  split; [exact H1 | exact H3].
Defined.

Lemma approve_needs_admin_code_witness :
  snd (approve demo_cfg (calm 1000) (approve_request "a@x.com" "guess")
         (demo_world false)) = demo_world false.
Proof.
  apply (approve_needs_admin_code demo_cfg (calm 1000)
           (approve_request "a@x.com" "guess") (demo_world false)).
  left. discriminate.
Defined.

Lemma approve_sets_flag_once_witness :
  users (snd (approve demo_cfg (calm 1000) (approve_request " A@x.com" "s3cret")
                (demo_world false))) = [demo_user true] /\
  approve demo_cfg (calm 2000) (approve_request " A@x.com" "s3cret")
    (snd (approve demo_cfg (calm 1000) (approve_request " A@x.com" "s3cret")
            (demo_world false))) =
  ({| status := 200; body := Message "Đã duyệt" |},
   snd (approve demo_cfg (calm 1000) (approve_request " A@x.com" "s3cret")
          (demo_world false))).
Proof.
  destruct (approve_sets_flag_once demo_cfg (calm 1000) (calm 2000)
              (approve_request " A@x.com" "s3cret") (demo_world false))
    as (_ & _ & _ & H4 & H5); try reflexivity; try discriminate.
  split; [rewrite H4; reflexivity | exact H5].
Defined.

Lemma forgot_answer_is_uniform_witness :
  fst (forgot demo_cfg (calm 1000) (forgot_request "a@x.com") (demo_world true)) =
  fst (forgot demo_cfg (calm 1000) (forgot_request "nobody@x.com") (demo_world true)).
Proof.
  assert (ND : NoDup (map User.email (users (demo_world true))))
    by (repeat constructor; intros []).
  destruct (forgot_answer_is_uniform demo_cfg (calm 1000) (forgot_request "a@x.com")
              (demo_world true) ND eq_refl eq_refl (or_introl eq_refl)) as [-> _].
  destruct (forgot_answer_is_uniform demo_cfg (calm 1000)
              (forgot_request "nobody@x.com")
              (demo_world true) ND eq_refl eq_refl (or_introl eq_refl)) as [-> _].
  reflexivity.
Defined.

Lemma forgot_keeps_earlier_tokens_witness :
  matching_resets "a@x.com" "t0k3n"
    (snd (forgot demo_cfg (calm 1000) (forgot_request "a@x.com") (demo_world true))) =
  matching_resets "a@x.com" "t0k3n" (demo_world true).
Proof.
  apply (forgot_keeps_earlier_tokens demo_cfg (calm 1000) (forgot_request "a@x.com")
           (demo_world true) "a@x.com" "t0k3n").
  discriminate.
Defined.

Lemma forgot_reset_login_witness :
  status (fst (login plain_compare demo_sign demo_cfg (calm 3000)
                 (login_request "a@x.com" "p2")
                 (snd (reset plain_hash (calm 2000)
                         (reset_request " A@X.com" (random_hex (calm 1000)) (Some "p2"))
                         (snd (forgot demo_cfg (calm 1000) (forgot_request "A@x.com")
                                 (demo_world true))))))) = 200.
Proof.
  apply (forgot_reset_login plain_hash plain_compare demo_sign demo_cfg
           (calm 1000) (calm 2000) (calm 3000) (forgot_request "A@x.com")
           (reset_request " A@X.com" (random_hex (calm 1000)) (Some "p2"))
           (login_request "a@x.com" "p2") (demo_world true) (demo_user true) "p2"
           plain_hash_sound);
    try reflexivity.
  - repeat constructor. intros [].
  - now left.
  - vm_compute. intros [H | []]. discriminate H.
  - vm_compute. discriminate.
Defined.

Lemma store_down_nothing_succeeds_witness :
  fst (serve plain_hash plain_compare demo_sign demo_verify demo_cfg
         Login (all_down 1000) (login_request "a@x.com" "p1") (demo_world true)) =
  {| status := 500; body := Message "Lỗi server" |}.
Proof.
  apply (store_down_nothing_succeeds plain_hash plain_compare demo_sign demo_verify
           demo_cfg Login (all_down 1000) (login_request "a@x.com" "p1")
           (demo_world true)).
  - repeat split.
  - now left.
Defined.

Lemma unconfigured_mailer_is_silent_witness :
  register plain_hash quiet_cfg (with_mail_error true (calm 1000))
    (register_request "B" "b@x.com" "p9") (demo_world true) =
  register plain_hash quiet_cfg (calm 1000)
    (register_request "B" "b@x.com" "p9") (demo_world true).
Proof.
  apply (unconfigured_mailer_is_silent plain_hash quiet_cfg true (calm 1000)
           (register_request "B" "b@x.com" "p9") (demo_world true)).
  right. right. right. reflexivity.
Defined.

Lemma bearer_header_parsed_witness :
  match_bearer ("bEaReR" ++ "  " ++ "token-0") = Some "token-0".
Proof.
  apply (bearer_header_parsed "" "bEaReR" "  " "token-0"); try reflexivity;
    discriminate.
Defined.

Lemma change_password_requires_valid_token_witness :
  status (fst (change_password plain_hash plain_compare demo_verify demo_cfg
                 (calm 1000) (change_request "Bearer forged" "p1" "p2")
                 (demo_world true))) = 401 /\
  snd (change_password plain_hash plain_compare demo_verify demo_cfg
         (calm 1000) (change_request "Bearer forged" "p1" "p2") (demo_world true)) =
  demo_world true.
Proof.
  apply (change_password_requires_valid_token plain_hash plain_compare demo_verify
           demo_cfg (calm 1000) (change_request "Bearer forged" "p1" "p2")
           (demo_world true)).
  intros t. vm_compute. intros [= <-]. reflexivity.
Defined.

Lemma session_token_changes_password_witness :
  login plain_compare demo_sign demo_cfg (calm 1000) (login_request "a@x.com" "p1")
    (demo_world true) =
    ({| status := 200; body := Session "token-0" 0 "a@x.com" "A" |}, demo_world true) /\
  fst (change_password plain_hash plain_compare demo_verify demo_cfg (calm 2000)
         (change_request "Bearer token-0" "p1" "p2") (demo_world true)) =
    {| status := 200; body := Message "Đã đổi mật khẩu" |} /\
  In (User.mk 0 "A" "a@x.com" "p2" true 0)
    (users (snd (change_password plain_hash plain_compare demo_verify demo_cfg
                   (calm 2000) (change_request "Bearer token-0" "p1" "p2")
                   (demo_world true)))) /\
  map User.pass_hash
    (users (snd (change_password plain_hash plain_compare demo_verify demo_cfg
                   (calm 2000) (change_request "Bearer token-0" "p1" "p2")
                   (demo_world true)))) = ["p2"].
Proof.
  assert (NDm : NoDup (map User.email (users (demo_world true))))
    by (repeat constructor; intros []).
  assert (NDi : NoDup (map User.id (users (demo_world true))))
    by (repeat constructor; intros []).
  destruct (session_token_changes_password plain_hash plain_compare demo_sign
              demo_verify demo_cfg (calm 1000) (calm 2000)
              (login_request "a@x.com" "p1")
              (change_request "Bearer token-0" "p1" "p2")
              (demo_world true) (demo_user true) "p2" NDm NDi (or_introl eq_refl))
    as (H1 & H2 & H3 & _); try reflexivity; try discriminate.
  split; [exact H1|]. split; [exact H2|]. split; [exact H3 | reflexivity].
Defined.


Lemma normalize_ignores_case_and_padding_witness :
  normalize ("  " ++ "A@X.com" ++ " ") = normalize "a@x.COM".
Proof.
  apply (normalize_ignores_case_and_padding "  " "A@X.com" "a@x.COM" " ");
    reflexivity.
Defined.
